(** * Feirantes marketplace backend (backend/server.py)

    A shallow embedding of the request handlers of [server.py] and the
    properties of the order flow, the catalogue, the listings and the
    dashboard.

    Conventions of the embedding.
    - A MongoDB collection is the list of its documents in insertion
      order; [find_one], [update_one] and [delete_one] act on the first
      document that matches the filter, as the driver does.
    - Documents are records with the fields the handlers read and write.
      A field that a stored dict may lack ([status] of an order, which
      [create_order] never writes) is an [option].
    - Python [int] is [Z]; Python [float] is IEEE binary64, Rocq's
      primitive [float].  The product [float * int] converts the integer
      with round-to-nearest-even.  Numbers are idealised at the extremes:
      the store holds any integer (the 64-bit limit of BSON is the
      driver's), and the conversion of an integer of magnitude 2^1024 or
      more yields an infinity where Python raises [OverflowError].
    - [uuid.uuid4()], [datetime.utcnow()] and [bcrypt.hashpw] are inputs of
      the handlers that call them.
    - A handler is a function from the database to a response and the
      database it leaves behind; [raise HTTPException] is a response. *)

From Stdlib Require Import ZArith Lia.
From Stdlib Require Import Floats.PrimFloat Floats.SpecFloat Floats.FloatOps.
From stdpp Require Import base option list strings pretty sorting gmap.

Local Open Scope Z_scope.

(** ** Python numbers *)

Module Py.

(** [float(n)] for an [int]: the nearest binary64, ties to even. *)
Definition float_of_int (n : Z) : float :=
  SF2Prim (binary_normalize prec emax n 0 false).

(** [x * n] with [x : float] and [n : int]. *)
Definition mul_float_int (x : float) (n : Z) : float :=
  PrimFloat.mul x (float_of_int n).

(** [sum(xs)] on floats: starts from [0] and adds from the left. *)
Definition sum (xs : list float) : float :=
  fold_left PrimFloat.add xs (float_of_int 0).

(** [len(xs)]. *)
Definition len {A} (xs : list A) : Z := Z.of_nat (length xs).

End Py.

(** ** Models (pydantic classes and stored dicts) *)

Definition datetime := Z.

Module Vendor.
Record t := mk {
  id : string;
  nome : string;
  email : string;
  telefone : string;
  senha : string;
  nome_loja : string;
  created_at : datetime
}.
End Vendor.

Module VendorResponse.
Record t := mk {
  id : string;
  nome : string;
  email : string;
  telefone : string;
  nome_loja : string;
  created_at : datetime
}.

(** The [VendorResponse] model built from a stored dict: [senha] is not
    a field of it. *)
Definition of_dict (v : Vendor.t) : t :=
  {| id := Vendor.id v;
     nome := Vendor.nome v;
     email := Vendor.email v;
     telefone := Vendor.telefone v;
     nome_loja := Vendor.nome_loja v;
     created_at := Vendor.created_at v |}.
End VendorResponse.

Module VendorCreate.
Record t := mk {
  nome : string;
  email : string;
  telefone : string;
  senha : string;
  nome_loja : string
}.
End VendorCreate.

Module Product.
Record t := mk {
  id : string;
  vendor_id : string;
  nome : string;
  descricao : string;
  preco : float;
  quantidade : Z;
  categoria : string;
  imagem : option string;
  created_at : datetime
}.
End Product.

Module ProductCreate.
Record t := mk {
  nome : string;
  descricao : string;
  preco : float;
  quantidade : Z;
  categoria : string;
  imagem : option string
}.
End ProductCreate.

(** A line item, [{"product_id": str, "nome": str, "preco": float,
    "quantidade": int}]. *)
Module Item.
Record t := mk {
  product_id : string;
  nome : string;
  preco : float;
  quantidade : Z
}.
End Item.

Module OrderCreate.
Record t := mk {
  vendor_id : string;
  cliente_nome : string;
  cliente_telefone : string;
  cliente_endereco : string;
  observacoes : option string;
  items : list Item.t
}.
End OrderCreate.

(** The dict stored in [db.orders].  [create_order] builds it from
    [order_data.dict()] plus [id], [total] and [created_at]: the key
    [status] is absent until [update_order_status] sets it. *)
Module OrderDoc.
Record t := mk {
  id : string;
  vendor_id : string;
  cliente_nome : string;
  cliente_telefone : string;
  cliente_endereco : string;
  observacoes : option string;
  items : list Item.t;
  total : float;
  status : option string;
  created_at : datetime
}.
End OrderDoc.

(** The response model [Order]; [status] defaults to ["novo"]. *)
Module Order.
Record t := mk {
  id : string;
  vendor_id : string;
  cliente_nome : string;
  cliente_telefone : string;
  cliente_endereco : string;
  observacoes : option string;
  items : list Item.t;
  total : float;
  status : string;
  created_at : datetime
}.

(** The [Order] model built from a stored dict (keyword expansion). *)
Definition of_dict (d : OrderDoc.t) : t :=
  {| id := OrderDoc.id d;
     vendor_id := OrderDoc.vendor_id d;
     cliente_nome := OrderDoc.cliente_nome d;
     cliente_telefone := OrderDoc.cliente_telefone d;
     cliente_endereco := OrderDoc.cliente_endereco d;
     observacoes := OrderDoc.observacoes d;
     items := OrderDoc.items d;
     total := OrderDoc.total d;
     status := default "novo"%string (OrderDoc.status d);
     created_at := OrderDoc.created_at d |}.
End Order.

(** ** The document store *)

Module Collection.
Section Ops.
Context {A : Type}.

(** [find_one(filter)]: the first matching document. *)
Definition find_one (q : A -> bool) (c : list A) : option A :=
  List.find q c.

(** [find(filter)]: a cursor over the matching documents. *)
Definition find (q : A -> bool) (c : list A) : list A :=
  List.filter q c.

Definition skip (n : Z) (cur : list A) : list A := drop (Z.to_nat n) cur.
Definition limit (n : Z) (cur : list A) : list A := take (Z.to_nat n) cur.
Definition to_list (n : Z) (cur : list A) : list A := take (Z.to_nat n) cur.

Definition count_documents (q : A -> bool) (c : list A) : Z :=
  Py.len (List.filter q c).

Definition insert_one (d : A) (c : list A) : list A := c ++ [d].

(** [update_one(filter, update)]: applies the update to the first
    matching document; the first component is [matched_count]. *)
Fixpoint update_one (q : A -> bool) (u : A -> A) (c : list A) : Z * list A :=
  match c with
  | [] => (0, [])
  | d :: c' =>
      if q d then (1, u d :: c')
      else let r := update_one q u c' in (fst r, d :: snd r)
  end.

(** [delete_one(filter)]: removes the first matching document; the
    first component is [deleted_count]. *)
Fixpoint delete_one (q : A -> bool) (c : list A) : Z * list A :=
  match c with
  | [] => (0, [])
  | d :: c' =>
      if q d then (1, c')
      else let r := delete_one q c' in (fst r, d :: snd r)
  end.
End Ops.
End Collection.

Record Db := mkDb {
  vendors : list Vendor.t;
  products : list Product.t;
  orders : list OrderDoc.t
}.

(** ** Handlers: state passing with HTTP errors *)

Inductive response (A : Type) :=
| Ok (a : A)
| HTTPException (status_code : Z) (detail : string).
Arguments Ok {A} a.
Arguments HTTPException {A} status_code detail.

Definition handler (A : Type) : Type := Db -> response A * Db.

Definition ret {A} (a : A) : handler A := fun db => (Ok a, db).

Definition raise {A} (status_code : Z) (detail : string) : handler A :=
  fun db => (HTTPException status_code detail, db).

Definition bind {A B} (m : handler A) (k : A -> handler B) : handler B :=
  fun db =>
    match m db with
    | (Ok a, db') => k a db'
    | (HTTPException c d, db') => (HTTPException c d, db')
    end.

Declare Scope handler_scope.
Delimit Scope handler_scope with handler.
Notation "'let*' x ':=' m 'in' k" := (bind m (fun x => k))
  (at level 10, x name, m at level 100, k at level 200) : handler_scope.
Notation "m ';;' k" := (bind m (fun _ => k))
  (at level 100, k at level 200, right associativity) : handler_scope.

(** [for x in xs: body]. *)
Fixpoint for_each {A} (xs : list A) (body : A -> handler unit) : handler unit :=
  match xs with
  | [] => ret tt
  | x :: xs' => bind (body x) (fun _ => for_each xs' body)
  end.

(** Accessors for the three collections. *)
Definition db_products {A} (f : list Product.t -> A * list Product.t) : handler A :=
  fun db =>
    let r := f (products db) in
    (Ok (fst r), {| vendors := vendors db; products := snd r; orders := orders db |}).

Definition db_orders {A} (f : list OrderDoc.t -> A * list OrderDoc.t) : handler A :=
  fun db =>
    let r := f (orders db) in
    (Ok (fst r), {| vendors := vendors db; products := products db; orders := snd r |}).

Definition db_vendors {A} (f : list Vendor.t -> A * list Vendor.t) : handler A :=
  fun db =>
    let r := f (vendors db) in
    (Ok (fst r), {| vendors := snd r; products := products db; orders := orders db |}).

(** A read-only query leaves the collection as it is. *)
Definition query {A B} (f : list A -> B) : list A -> B * list A :=
  fun c => (f c, c).

(** A write that returns nothing. *)
Definition write {A} (f : list A -> list A) : list A -> unit * list A :=
  fun c => (tt, f c).

(** ** Security *)

(** What [HTTPBearer] and [jwt.decode] make of the Authorization header:
    no credentials, a token that [jwt.decode] rejects, or a token whose
    payload carries [vendor_id]. *)
Inductive bearer :=
| NoCredentials
| InvalidToken
| Token (vendor_id : string).

Definition create_access_token (vendor_id : string) : bearer := Token vendor_id.

Definition get_current_vendor (credentials : bearer) : handler Vendor.t :=
  (match credentials with
   | NoCredentials => raise 403 "Not authenticated"
   | InvalidToken => raise 401 "Token inválido"
   | Token vendor_id =>
       let* vendor := db_vendors (query (Collection.find_one
                        (fun v => String.eqb (Vendor.id v) vendor_id))) in
       match vendor with
       | None => raise 401 "Vendedor não encontrado"
       | Some vendor => ret vendor
       end
   end)%handler.

(** [Query(default, ge=.., le=..)] on an integer parameter: the default
    when the parameter is absent, a validation error (422) when it is out
    of bounds.  The detail of the error names the parameter. *)
Definition Query (name : string) (default : Z) (ge le : option Z)
    (raw : option Z) : handler Z :=
  match raw with
  | None => ret default
  | Some v =>
      if match ge with Some b => v <? b | None => false end
      then raise 422 name
      else if match le with Some b => b <? v | None => false end
      then raise 422 name
      else ret v
  end.

(** ** Auth routes *)

Definition register_vendor (vendor_data : VendorCreate.t)
    (hashed : string) (uuid4 : string) (utcnow : datetime)
  : handler (bearer * VendorResponse.t) :=
  (let* existing_vendor := db_vendors (query (Collection.find_one
       (fun v => String.eqb (Vendor.email v) (VendorCreate.email vendor_data)))) in
   match existing_vendor with
   | Some _ => raise 400 "Email já cadastrado"
   | None =>
       let vendor_dict :=
         {| Vendor.id := uuid4;
            Vendor.nome := VendorCreate.nome vendor_data;
            Vendor.email := VendorCreate.email vendor_data;
            Vendor.telefone := VendorCreate.telefone vendor_data;
            Vendor.senha := hashed;
            Vendor.nome_loja := VendorCreate.nome_loja vendor_data;
            Vendor.created_at := utcnow |} in
       db_vendors (write (Collection.insert_one vendor_dict)) ;;
       ret (create_access_token (Vendor.id vendor_dict), VendorResponse.of_dict vendor_dict)
   end)%handler.

(** ** Product routes *)

(** The filters the handlers pass to the driver. *)
Definition product_by_id (product_id : string) (p : Product.t) : bool :=
  String.eqb (Product.id p) product_id.

Definition product_by_vendor (vendor_id : string) (p : Product.t) : bool :=
  String.eqb (Product.vendor_id p) vendor_id.

Definition product_by_id_vendor (product_id vendor_id : string) (p : Product.t) : bool :=
  product_by_id product_id p && product_by_vendor vendor_id p.

Definition create_product (product_data : ProductCreate.t) (current_vendor : Vendor.t)
    (uuid4 : string) (utcnow : datetime) : handler Product.t :=
  (let product_dict :=
     {| Product.id := uuid4;
        Product.vendor_id := Vendor.id current_vendor;
        Product.nome := ProductCreate.nome product_data;
        Product.descricao := ProductCreate.descricao product_data;
        Product.preco := ProductCreate.preco product_data;
        Product.quantidade := ProductCreate.quantidade product_data;
        Product.categoria := ProductCreate.categoria product_data;
        Product.imagem := ProductCreate.imagem product_data;
        Product.created_at := utcnow |} in
   db_products (write (Collection.insert_one product_dict)) ;;
   ret product_dict)%handler.

Record page (A : Type) := mkPage { page_total : Z; page_items : list A }.
Arguments mkPage {A} page_total page_items.
Arguments page_total {A} p.
Arguments page_items {A} p.

Definition get_my_products (current_vendor : Vendor.t) (skip limit : Z)
  : handler (page Product.t) :=
  (let* total := db_products (query (Collection.count_documents
                    (product_by_vendor (Vendor.id current_vendor)))) in
   let* products := db_products (query (fun c =>
       Collection.to_list limit (Collection.limit limit (Collection.skip skip
         (Collection.find (product_by_vendor (Vendor.id current_vendor)) c))))) in
   ret {| page_total := total; page_items := products |})%handler.

(** [{"$set": product_data.dict()}]. *)
Definition set_product (product_data : ProductCreate.t) (p : Product.t) : Product.t :=
  {| Product.id := Product.id p;
     Product.vendor_id := Product.vendor_id p;
     Product.nome := ProductCreate.nome product_data;
     Product.descricao := ProductCreate.descricao product_data;
     Product.preco := ProductCreate.preco product_data;
     Product.quantidade := ProductCreate.quantidade product_data;
     Product.categoria := ProductCreate.categoria product_data;
     Product.imagem := ProductCreate.imagem product_data;
     Product.created_at := Product.created_at p |}.

Definition update_product (product_id : string) (product_data : ProductCreate.t)
    (current_vendor : Vendor.t) : handler Product.t :=
  (let* product := db_products (query (Collection.find_one
        (product_by_id_vendor product_id (Vendor.id current_vendor)))) in
   match product with
   | None => raise 404 "Produto não encontrado"
   | Some _ =>
       db_products (Collection.update_one (product_by_id product_id)
                      (set_product product_data)) ;;
       let* updated_product := db_products (query (Collection.find_one
                                  (product_by_id product_id))) in
       match updated_product with
       | Some updated_product => ret updated_product
       | None => raise 500 "Internal Server Error"
       end
   end)%handler.

Definition delete_product (product_id : string) (current_vendor : Vendor.t)
  : handler string :=
  (let* deleted_count := db_products (Collection.delete_one
        (product_by_id_vendor product_id (Vendor.id current_vendor))) in
   if deleted_count =? 0 then raise 404 "Produto não encontrado"
   else ret "Produto excluído com sucesso")%handler.

(** ** Order routes *)

Definition order_by_vendor (vendor_id : string) (o : OrderDoc.t) : bool :=
  String.eqb (OrderDoc.vendor_id o) vendor_id.

Definition order_by_id_vendor (order_id vendor_id : string) (o : OrderDoc.t) : bool :=
  String.eqb (OrderDoc.id o) order_id && order_by_vendor vendor_id o.

(** [{"$inc": {"quantidade": n}}]. *)
Definition inc_quantidade (n : Z) (p : Product.t) : Product.t :=
  {| Product.id := Product.id p;
     Product.vendor_id := Product.vendor_id p;
     Product.nome := Product.nome p;
     Product.descricao := Product.descricao p;
     Product.preco := Product.preco p;
     Product.quantidade := Product.quantidade p + n;
     Product.categoria := Product.categoria p;
     Product.imagem := Product.imagem p;
     Product.created_at := Product.created_at p |}.

(** The first loop of [create_order]: look every item up and compare. *)
Definition check_item (item : Item.t) : handler unit :=
  (let* product := db_products (query (Collection.find_one
        (product_by_id (Item.product_id item)))) in
   match product with
   | None => raise 404 ("Produto " +:+ Item.nome item +:+ " não encontrado")
   | Some product =>
       if Product.quantidade product <? Item.quantidade item
       then raise 400 ("Estoque insuficiente para o produto " +:+ Item.nome item)
       else ret tt
   end)%handler.

(** The second loop of [create_order]: decrement, unconditionally. *)
Definition decrement_item (item : Item.t) : handler unit :=
  (db_products (Collection.update_one (product_by_id (Item.product_id item))
                  (inc_quantidade (- Item.quantidade item))) ;;
   ret tt)%handler.

(** [sum(item["preco"] * item["quantidade"] for item in items)]. *)
Definition order_total (items : list Item.t) : float :=
  Py.sum (map (fun item => Py.mul_float_int (Item.preco item) (Item.quantidade item)) items).

Definition create_order (order_data : OrderCreate.t)
    (uuid4 : string) (utcnow : datetime) : handler Order.t :=
  (for_each (OrderCreate.items order_data) check_item ;;
   for_each (OrderCreate.items order_data) decrement_item ;;
   let total := order_total (OrderCreate.items order_data) in
   let order_dict :=
     {| OrderDoc.id := uuid4;
        OrderDoc.vendor_id := OrderCreate.vendor_id order_data;
        OrderDoc.cliente_nome := OrderCreate.cliente_nome order_data;
        OrderDoc.cliente_telefone := OrderCreate.cliente_telefone order_data;
        OrderDoc.cliente_endereco := OrderCreate.cliente_endereco order_data;
        OrderDoc.observacoes := OrderCreate.observacoes order_data;
        OrderDoc.items := OrderCreate.items order_data;
        OrderDoc.total := total;
        OrderDoc.status := None;
        OrderDoc.created_at := utcnow |} in
   db_orders (write (Collection.insert_one order_dict)) ;;
   ret (Order.of_dict order_dict))%handler.

Definition get_my_orders (current_vendor : Vendor.t) (skip limit : Z)
  : handler (page Order.t) :=
  (let* total := db_orders (query (Collection.count_documents
                    (order_by_vendor (Vendor.id current_vendor)))) in
   let* orders := db_orders (query (fun c =>
       Collection.to_list limit (Collection.limit limit (Collection.skip skip
         (Collection.find (order_by_vendor (Vendor.id current_vendor)) c))))) in
   ret {| page_total := total; page_items := map Order.of_dict orders |})%handler.

(** [{"$set": {"status": s}}]. *)
Definition set_status (s : string) (o : OrderDoc.t) : OrderDoc.t :=
  {| OrderDoc.id := OrderDoc.id o;
     OrderDoc.vendor_id := OrderDoc.vendor_id o;
     OrderDoc.cliente_nome := OrderDoc.cliente_nome o;
     OrderDoc.cliente_telefone := OrderDoc.cliente_telefone o;
     OrderDoc.cliente_endereco := OrderDoc.cliente_endereco o;
     OrderDoc.observacoes := OrderDoc.observacoes o;
     OrderDoc.items := OrderDoc.items o;
     OrderDoc.total := OrderDoc.total o;
     OrderDoc.status := Some s;
     OrderDoc.created_at := OrderDoc.created_at o |}.

(** The body [status] is a JSON object; [status["status"]] on an object
    without that key is a [KeyError], an internal server error, raised
    before the store is touched. *)
Definition update_order_status (order_id : string) (status : gmap string string)
    (current_vendor : Vendor.t) : handler string :=
  (match status !! "status" with
   | None => raise 500 "Internal Server Error"
   | Some new_status =>
       let* matched_count := db_orders (Collection.update_one
             (order_by_id_vendor order_id (Vendor.id current_vendor))
             (set_status new_status)) in
       if matched_count =? 0 then raise 404 "Pedido não encontrado"
       else ret "Status atualizado com sucesso"
   end)%handler.

(** ** Dashboard

    [total_vendas] and [quantidade_pedidos]; the ranking of product names
    and the per-day revenue (time-zone conversion) are outside this
    development. *)

Record dashboard := mkDashboard {
  total_vendas : float;
  quantidade_pedidos : Z
}.

Definition get_dashboard (current_vendor : Vendor.t) : handler dashboard :=
  (let* orders := db_orders (query (fun c =>
       Collection.to_list 1000
         (Collection.find (order_by_vendor (Vendor.id current_vendor)) c))) in
   let total_vendas := Py.sum (map OrderDoc.total orders) in
   let quantidade_pedidos := Py.len orders in
   ret {| total_vendas := total_vendas;
          quantidade_pedidos := quantidade_pedidos |})%handler.

(** ** Routes with their dependencies resolved

    [Depends(get_current_vendor)] runs first and its [HTTPException]
    ends the request; the query parameters are validated next. *)

Definition Depends {A} (credentials : bearer) (h : Vendor.t -> handler A) : handler A :=
  (let* current_vendor := get_current_vendor credentials in h current_vendor)%handler.

Definition paginated {A} (h : Vendor.t -> Z -> Z -> handler A)
    (credentials : bearer) (skip limit : option Z) : handler A :=
  Depends credentials (fun current_vendor =>
    (let* skip := Query "skip" 0 (Some 0) None skip in
     let* limit := Query "limit" 20 (Some 1) (Some 100) limit in
     h current_vendor skip limit)%handler).

Definition GET_products_my := paginated get_my_products.
Definition GET_orders_my := paginated get_my_orders.

(** A request to the API.  The routes that only read the store and take
    no part in the properties below ([/auth/login], [/stores/all],
    [/loja/..], [/categorias/..], [/]) carry no payload. *)
Inductive request :=
| RegisterVendor (vendor_data : VendorCreate.t) (hashed uuid4 : string) (utcnow : datetime)
| LoginVendor
| CreateProduct (credentials : bearer) (product_data : ProductCreate.t)
    (uuid4 : string) (utcnow : datetime)
| GetMyProducts (credentials : bearer) (skip limit : option Z)
| UpdateProduct (credentials : bearer) (product_id : string) (product_data : ProductCreate.t)
| DeleteProduct (credentials : bearer) (product_id : string)
| GetAllStores
| GetStore (nome_loja : string)
| GetStoreCategories (nome_loja : string)
| CreateOrder (order_data : OrderCreate.t) (uuid4 : string) (utcnow : datetime)
| GetMyOrders (credentials : bearer) (skip limit : option Z)
| UpdateOrderStatus (credentials : bearer) (order_id : string) (status : gmap string string)
| GetDashboard (credentials : bearer)
| Root.

(** The store a request leaves behind. *)
Definition exec (r : request) (db : Db) : Db :=
  match r with
  | RegisterVendor vendor_data hashed uuid4 utcnow =>
      snd (register_vendor vendor_data hashed uuid4 utcnow db)
  | CreateProduct credentials product_data uuid4 utcnow =>
      snd (Depends credentials (fun v => create_product product_data v uuid4 utcnow) db)
  | GetMyProducts credentials skip limit =>
      snd (GET_products_my credentials skip limit db)
  | UpdateProduct credentials product_id product_data =>
      snd (Depends credentials (update_product product_id product_data) db)
  | DeleteProduct credentials product_id =>
      snd (Depends credentials (delete_product product_id) db)
  | CreateOrder order_data uuid4 utcnow =>
      snd (create_order order_data uuid4 utcnow db)
  | GetMyOrders credentials skip limit =>
      snd (GET_orders_my credentials skip limit db)
  | UpdateOrderStatus credentials order_id status =>
      snd (Depends credentials (update_order_status order_id status) db)
  | GetDashboard credentials =>
      snd (Depends credentials get_dashboard db)
  | LoginVendor | GetAllStores | GetStore _ | GetStoreCategories _ | Root => db
  end.

(** The stores seen after each request of a sequence. *)
Fixpoint trace (rs : list request) (db : Db) : list Db :=
  match rs with
  | [] => []
  | r :: rs' => exec r db :: trace rs' (exec r db)
  end.

(** The status line of a response: 200 unless an [HTTPException] is raised. *)
Definition http_status {A} (r : response A) : Z :=
  match r with
  | Ok _ => 200
  | HTTPException status_code _ => status_code
  end.

(** ** Login

    [verify_password] is a call to [bcrypt.checkpw]; the handler is
    stated over any such check. *)

Module VendorLogin.
Record t := mk {
  email : string;
  senha : string
}.
End VendorLogin.

Section Credentials.
Variable verify_password : string -> string -> bool.

Definition login_vendor (login_data : VendorLogin.t)
  : handler (bearer * VendorResponse.t) :=
  (let* vendor := db_vendors (query (Collection.find_one
       (fun v => String.eqb (Vendor.email v) (VendorLogin.email login_data)))) in
   match vendor with
   | None => raise 401 "Email ou senha inválidos"
   | Some vendor =>
       if verify_password (VendorLogin.senha login_data) (Vendor.senha vendor)
       then ret (create_access_token (Vendor.id vendor), VendorResponse.of_dict vendor)
       else raise 401 "Email ou senha inválidos"
   end)%handler.
End Credentials.

(** ** Public store routes *)

Module StoreInfo.
Record t := mk {
  id : string;
  nome : string;
  nome_loja : string;
  telefone : string;
  product_count : Z;
  created_at : datetime
}.
End StoreInfo.

(** [{"vendor_id": v, "quantidade": {"$gt": 0}}]. *)
Definition product_in_stock_of (vendor_id : string) (p : Product.t) : bool :=
  product_by_vendor vendor_id p && (0 <? Product.quantidade p).

Definition vendor_by_nome_loja (nome_loja : string) (v : Vendor.t) : bool :=
  String.eqb (Vendor.nome_loja v) nome_loja.

(** A loop that appends one result per element. *)
Fixpoint for_append {A B} (xs : list A) (body : A -> handler B) : handler (list B) :=
  match xs with
  | [] => ret []
  | x :: xs' =>
      bind (body x) (fun y => bind (for_append xs' body) (fun ys => ret (y :: ys)))
  end.

(** [try: ... except Exception: raise HTTPException(500, detail)]. *)
Definition try_except {A} (h : handler A) (detail : string) : handler A :=
  fun db =>
    match h db with
    | (Ok a, db') => (Ok a, db')
    | (HTTPException _ _, db') => (HTTPException 500 detail, db')
    end.

(** [xs.sort(key=key, reverse=True)].  The sort is stable, also in
    reverse, so its result is determined by the keys and the order of the
    input; insertion from the right computes it. *)
Fixpoint insert_reverse {A} (key : A -> Z) (x : A) (l : list A) : list A :=
  match l with
  | [] => [x]
  | y :: l' => if key y <=? key x then x :: y :: l' else y :: insert_reverse key x l'
  end.

Definition sort_reverse {A} (key : A -> Z) (xs : list A) : list A :=
  foldr (insert_reverse key) [] xs.

Definition get_all_stores : handler (list StoreInfo.t) :=
  try_except
    (let* vendors := db_vendors (query (fun c =>
         Collection.to_list 1000 (Collection.find (fun _ => true) c))) in
     let* stores := for_append vendors (fun vendor =>
         let* product_count := db_products (query (Collection.count_documents
                                  (product_in_stock_of (Vendor.id vendor)))) in
         ret {| StoreInfo.id := Vendor.id vendor;
                StoreInfo.nome := Vendor.nome vendor;
                StoreInfo.nome_loja := Vendor.nome_loja vendor;
                StoreInfo.telefone := Vendor.telefone vendor;
                StoreInfo.product_count := product_count;
                StoreInfo.created_at := Vendor.created_at vendor |}) in
     ret (sort_reverse StoreInfo.created_at stores))%handler
    "Erro ao buscar lojas".

Record store := mkStore {
  store_vendor : VendorResponse.t;
  store_products : list Product.t
}.

Definition get_store (nome_loja : string) : handler store :=
  (let* vendor := db_vendors (query (Collection.find_one (vendor_by_nome_loja nome_loja))) in
   match vendor with
   | None => raise 404 "Loja não encontrada"
   | Some vendor =>
       let* products := db_products (query (fun c =>
           Collection.to_list 1000
             (Collection.find (product_in_stock_of (Vendor.id vendor)) c))) in
       ret {| store_vendor := VendorResponse.of_dict vendor;
              store_products := products |}
   end)%handler.

(** [distinct(key, filter)]: the values of the key among the matching
    documents, each once.  The driver fixes no order. *)
Definition distinct {A} (key : A -> string) (q : A -> bool) (c : list A) : list string :=
  remove_dups (map key (List.filter q c)).

Definition get_store_categories (nome_loja : string) : handler (list string) :=
  (let* vendor := db_vendors (query (Collection.find_one (vendor_by_nome_loja nome_loja))) in
   match vendor with
   | None => raise 404 "Loja não encontrada"
   | Some vendor =>
       db_products (query (distinct Product.categoria (product_by_vendor (Vendor.id vendor))))
   end)%handler.

(** ** Dashboard: the best-selling products *)

(** [counter[k] += v] on a [Counter]: a missing key counts as 0 and is
    added last; a present key keeps its place. *)
Fixpoint counter_add (k : string) (v : Z) (counter : list (string * Z)) : list (string * Z) :=
  match counter with
  | [] => [(k, 0 + v)]
  | (k', n) :: counter' =>
      if String.eqb k' k then (k', n + v) :: counter'
      else (k', n) :: counter_add k v counter'
  end.

(** The two nested loops over the orders and their items. *)
Definition produtos_counter (orders : list OrderDoc.t) : list (string * Z) :=
  fold_left (fun counter order =>
               fold_left (fun counter item =>
                            counter_add (Item.nome item) (Item.quantidade item) counter)
                         (OrderDoc.items order) counter)
            orders [].

(** [counter.most_common(n)]: the [n] largest counts, largest first, ties
    in the order the keys were first counted. *)
Definition most_common (n : nat) (counter : list (string * Z)) : list (string * Z) :=
  take n (sort_reverse snd counter).

(** The field [produtos_mais_vendidos] of [get_dashboard]. *)
Definition get_dashboard_produtos_mais_vendidos (current_vendor : Vendor.t)
  : handler (list (string * Z)) :=
  (let* orders := db_orders (query (fun c =>
       Collection.to_list 1000
         (Collection.find (order_by_vendor (Vendor.id current_vendor)) c))) in
   let produtos_counter := produtos_counter orders in
   let produtos_mais_vendidos := most_common 5 produtos_counter in
   ret produtos_mais_vendidos)%handler.

(** [GET /]. *)
Definition root : handler string := ret "Sistema de Feirantes Online".

(** ** Predicates of the statements *)

(** The product a line item names, as [create_order] looks it up. *)
Definition named_product (c : list Product.t) (item : Item.t) : option Product.t :=
  Collection.find_one (product_by_id (Item.product_id item)) c.

Definition known (c : list Product.t) (item : Item.t) : Prop :=
  is_Some (named_product c item).

Definition sufficient (c : list Product.t) (item : Item.t) : Prop :=
  exists p, named_product c item = Some p /\ Item.quantidade item <= Product.quantidade p.

Definition insufficient (c : list Product.t) (item : Item.t) : Prop :=
  exists p, named_product c item = Some p /\ Product.quantidade p < Item.quantidade item.

(** Every stored quantity is non-negative. *)
Definition stock_nonneg (db : Db) : Prop :=
  Forall (fun p => 0 <= Product.quantidade p) (products db).


(** The products collection after the second loop of [create_order]. *)
Definition decremented (items : list Item.t) (c : list Product.t) : list Product.t :=
  fold_left (fun c item =>
               snd (Collection.update_one (product_by_id (Item.product_id item))
                      (inc_quantidade (- Item.quantidade item)) c)) items c.

(** The document an accepted request is expected to store: the request's
    fields, the fresh id and timestamp, the computed total, no status. *)
Definition stored_order (order_data : OrderCreate.t) (uuid4 : string) (utcnow : datetime)
  : OrderDoc.t :=
  {| OrderDoc.id := uuid4;
     OrderDoc.vendor_id := OrderCreate.vendor_id order_data;
     OrderDoc.cliente_nome := OrderCreate.cliente_nome order_data;
     OrderDoc.cliente_telefone := OrderCreate.cliente_telefone order_data;
     OrderDoc.cliente_endereco := OrderCreate.cliente_endereco order_data;
     OrderDoc.observacoes := OrderCreate.observacoes order_data;
     OrderDoc.items := OrderCreate.items order_data;
     OrderDoc.total :=
       fold_left (fun acc item =>
                    PrimFloat.add acc
                      (PrimFloat.mul (Item.preco item) (Py.float_of_int (Item.quantidade item))))
                 (OrderCreate.items order_data) (Py.float_of_int 0);
     OrderDoc.status := None;
     OrderDoc.created_at := utcnow |}.

(** An order with the given id that belongs to the given vendor. *)
Definition owned_order (order_id vendor_id : string) (o : OrderDoc.t) : Prop :=
  OrderDoc.id o = order_id /\ OrderDoc.vendor_id o = vendor_id.

(** Requests that stay within the contract the stock invariant needs:
    product forms with a non-negative quantity, and orders whose lines
    name pairwise distinct products. *)
Definition admissible (r : request) : Prop :=
  match r with
  | CreateProduct _ product_data _ _ => 0 <= ProductCreate.quantidade product_data
  | UpdateProduct _ _ product_data => 0 <= ProductCreate.quantidade product_data
  | CreateOrder order_data _ _ => NoDup (map Item.product_id (OrderCreate.items order_data))
  | _ => True
  end.

(** ** A small market, for the examples *)

Module Market.
Definition ana : Vendor.t :=
  {| Vendor.id := "A"; Vendor.nome := "Ana"; Vendor.email := "ana@feira.br";
     Vendor.telefone := "11"; Vendor.senha := "$2b$ana"; Vendor.nome_loja := "Feira_da_Ana";
     Vendor.created_at := 1 |}.

Definition bia : Vendor.t :=
  {| Vendor.id := "B"; Vendor.nome := "Bia"; Vendor.email := "bia@feira.br";
     Vendor.telefone := "21"; Vendor.senha := "$2b$bia"; Vendor.nome_loja := "Banca_da_Bia";
     Vendor.created_at := 2 |}.

(** Ana's tomatoes: 25 in stock at 8.50. *)
Definition tomate : Product.t :=
  {| Product.id := "P"; Product.vendor_id := "A"; Product.nome := "Tomate";
     Product.descricao := "Tomate organico"; Product.preco := 8.5%float;
     Product.quantidade := 25; Product.categoria := "Verduras";
     Product.imagem := None; Product.created_at := 3 |}.

(** Bia's eggs: 10 in stock at 12.00. *)
Definition ovos : Product.t :=
  {| Product.id := "Q"; Product.vendor_id := "B"; Product.nome := "Ovos";
     Product.descricao := "Duzia"; Product.preco := 12%float;
     Product.quantidade := 10; Product.categoria := "Granja";
     Product.imagem := None; Product.created_at := 4 |}.

Definition db : Db := {| vendors := [ana; bia]; products := [tomate; ovos]; orders := [] |}.

Definition line (product_id nome : string) (preco : float) (quantidade : Z) : Item.t :=
  {| Item.product_id := product_id; Item.nome := nome;
     Item.preco := preco; Item.quantidade := quantidade |}.

Definition order_for (vendor_id : string) (items : list Item.t) : OrderCreate.t :=
  {| OrderCreate.vendor_id := vendor_id; OrderCreate.cliente_nome := "Joao";
     OrderCreate.cliente_telefone := "99"; OrderCreate.cliente_endereco := "Rua das Flores";
     OrderCreate.observacoes := None; OrderCreate.items := items |}.

(** The market after one sale of three tomatoes. *)
Definition sold : Db :=
  exec (CreateOrder (order_for "A" [line "P" "Tomate" 8.5%float 3]) "o-1" 5) db.

(** A well-stocked stall ... *)
Definition stocked : Db :=
  {| vendors := [ana];
     products := [{| Product.id := "P"; Product.vendor_id := "A"; Product.nome := "Tomate";
                     Product.descricao := "Tomate organico"; Product.preco := 1%float;
                     Product.quantidade := 5000; Product.categoria := "Verduras";
                     Product.imagem := None; Product.created_at := 3 |}];
     orders := [] |}.

(** ... and the same stall after [n] customers bought one tomato each,
    at 1.00, through [POST /orders]. *)
Definition busy (n : nat) : Db :=
  foldl (fun db k =>
           exec (CreateOrder (order_for "A" [line "P" "Tomate" 1%float 1])
                   ("o-" +:+ pretty k) (Z.of_nat k)) db)
        stocked (seq 0 n).
End Market.

(** ** Predicates of the further statements *)

(** What an order is, apart from its status. *)
Definition order_core (o : OrderDoc.t)
  : string * string * list Item.t * float * datetime :=
  (OrderDoc.id o, OrderDoc.vendor_id o, OrderDoc.items o, OrderDoc.total o,
   OrderDoc.created_at o).

(** The units of the product called [nome] over some lines, and over the
    lines of some orders. *)
Definition line_units (nome : string) (items : list Item.t) : Z :=
  foldr (fun item acc =>
           if String.eqb (Item.nome item) nome then Item.quantidade item + acc else acc)
        0 items.

Definition units_sold (nome : string) (orders : list OrderDoc.t) : Z :=
  foldr (fun order acc => line_units nome (OrderDoc.items order) + acc) 0 orders.

(** What a counter holds under a key. *)
Definition counted (k : string) (counter : list (string * Z)) : Z :=
  foldr (fun entry acc => if String.eqb (fst entry) k then snd entry + acc else acc)
        0 counter.

(** The sum of the stored quantities. *)
Definition stock_units (c : list Product.t) : Z :=
  foldr (fun p acc => Product.quantidade p + acc) 0 c.

(** The sum of the quantities of the lines of a request. *)
Definition ordered_units (items : list Item.t) : Z :=
  foldr (fun item acc => Item.quantidade item + acc) 0 items.

(** The entry of a vendor on the home page, counted on a products
    collection. *)
Definition store_info (c : list Product.t) (v : Vendor.t) : StoreInfo.t :=
  {| StoreInfo.id := Vendor.id v;
     StoreInfo.nome := Vendor.nome v;
     StoreInfo.nome_loja := Vendor.nome_loja v;
     StoreInfo.telefone := Vendor.telefone v;
     StoreInfo.product_count :=
       Z.of_nat (length (List.filter
                           (fun p => String.eqb (Product.vendor_id p) (Vendor.id v)
                                     && (0 <? Product.quantidade p)) c));
     StoreInfo.created_at := Vendor.created_at v |}.


(** * Properties *)

(** ** The store and the handler combinators *)

Lemma db_eta (db : Db) :
  {| vendors := vendors db; products := products db; orders := orders db |} = db.
Proof. destruct db; reflexivity. Qed.

Lemma db_products_query {A} (f : list Product.t -> A) (db : Db) :
  db_products (query f) db = (Ok (f (products db)), db).
Proof. unfold db_products, query; simpl. now rewrite db_eta. Qed.

Lemma db_orders_query {A} (f : list OrderDoc.t -> A) (db : Db) :
  db_orders (query f) db = (Ok (f (orders db)), db).
Proof. unfold db_orders, query; simpl. now rewrite db_eta. Qed.

Lemma db_vendors_query {A} (f : list Vendor.t -> A) (db : Db) :
  db_vendors (query f) db = (Ok (f (vendors db)), db).
Proof. unfold db_vendors, query; simpl. now rewrite db_eta. Qed.

Lemma bind_ok {A B} (m : handler A) (k : A -> handler B) db a db' :
  m db = (Ok a, db') -> bind m k db = k a db'.
Proof. unfold bind. now intros ->. Qed.

Lemma bind_raise {A B} (m : handler A) (k : A -> handler B) db c d db' :
  m db = (HTTPException c d, db') -> bind m k db = (HTTPException c d, db').
Proof. unfold bind. now intros ->. Qed.

Lemma for_each_cons {A} (x : A) xs body db :
  for_each (x :: xs) body db = bind (body x) (fun _ => for_each xs body) db.
Proof. reflexivity. Qed.

Module CollectionFacts.
Section Facts.
Context {A : Type}.
Implicit Types (q : A -> bool) (u : A -> A) (c : list A).

Lemma find_one_Some q c d :
  Collection.find_one q c = Some d -> d ∈ c /\ q d = true.
Proof.
  unfold Collection.find_one. intros H. apply find_some in H.
  destruct H as [H1 H2]. split; [now apply list_elem_of_In | exact H2].
Qed.

Lemma find_one_None q c :
  Collection.find_one q c = None <-> forall d, d ∈ c -> q d = false.
Proof.
  unfold Collection.find_one. split.
  - intros H d Hd. apply (find_none q c H d). now apply list_elem_of_In.
  - intros H. induction c as [|x c IH]; simpl; [reflexivity|].
    rewrite (H x) by constructor. apply IH. intros d Hd. apply H. now constructor.
Qed.

(** The first match splits the collection. *)
Lemma find_one_split q c d :
  Collection.find_one q c = Some d ->
  exists c1 c2, c = c1 ++ d :: c2 /\ q d = true /\ (forall x, x ∈ c1 -> q x = false).
Proof.
  unfold Collection.find_one. induction c as [|x c IH]; simpl; [discriminate|].
  destruct (q x) eqn:Hx.
  - intros [= ->]. exists [], c. split; [reflexivity|]. split; [exact Hx|].
    intros y Hy. inversion Hy.
  - intros H. destruct (IH H) as (c1 & c2 & -> & Hd & Hc1).
    exists (x :: c1), c2. split; [reflexivity|]. split; [exact Hd|].
    intros y Hy. apply elem_of_cons in Hy as [-> | Hy]; [exact Hx | now apply Hc1].
Qed.

Lemma update_one_miss q u c :
  Collection.find_one q c = None -> Collection.update_one q u c = (0, c).
Proof.
  unfold Collection.find_one. induction c as [|x c IH]; simpl; [reflexivity|].
  destruct (q x); [discriminate|]. intros H. now rewrite (IH H).
Qed.

Lemma update_one_hit q u c1 d c2 :
  q d = true -> (forall x, x ∈ c1 -> q x = false) ->
  Collection.update_one q u (c1 ++ d :: c2) = (1, c1 ++ u d :: c2).
Proof.
  intros Hd. induction c1 as [|x c1 IH]; simpl; intros Hc1.
  - now rewrite Hd.
  - rewrite (Hc1 x) by constructor.
    rewrite IH; [reflexivity|]. intros y Hy. apply Hc1. now constructor.
Qed.

Lemma delete_one_miss q c :
  Collection.find_one q c = None -> Collection.delete_one q c = (0, c).
Proof.
  unfold Collection.find_one. induction c as [|x c IH]; simpl; [reflexivity|].
  destruct (q x); [discriminate|]. intros H. now rewrite (IH H).
Qed.

End Facts.
End CollectionFacts.

(** ** Order creation: the validation loop *)

Lemma check_item_unknown item db :
  named_product (products db) item = None ->
  exists d, check_item item db = (HTTPException 404 d, db).
Proof.
  intros H. unfold check_item. eexists.
  erewrite bind_ok by apply db_products_query.
  fold (named_product (products db) item). rewrite H. reflexivity.
Qed.

Lemma check_item_insufficient item db :
  insufficient (products db) item ->
  exists d, check_item item db = (HTTPException 400 d, db).
Proof.
  intros (p & Hp & Hlt). unfold check_item. eexists.
  erewrite bind_ok by apply db_products_query.
  fold (named_product (products db) item). rewrite Hp.
  apply Z.ltb_lt in Hlt. rewrite Hlt. reflexivity.
Qed.

Lemma check_item_sufficient item db :
  sufficient (products db) item -> check_item item db = (Ok tt, db).
Proof.
  intros (p & Hp & Hle). unfold check_item.
  erewrite bind_ok by apply db_products_query.
  fold (named_product (products db) item). rewrite Hp.
  apply Z.ltb_ge in Hle. rewrite Hle. reflexivity.
Qed.

Lemma item_cases c item :
  named_product c item = None \/ insufficient c item \/ sufficient c item.
Proof.
  unfold insufficient, sufficient. destruct (named_product c item) as [p|]; [|now left].
  right. destruct (Z_lt_le_dec (Product.quantidade p) (Item.quantidade item)).
  - left. now exists p.
  - right. now exists p.
Qed.

Lemma sufficient_not_insufficient c item :
  sufficient c item -> insufficient c item -> False.
Proof. intros (p & Hp & H1) (p' & Hp' & H2). rewrite Hp in Hp'. inversion Hp'; subst. lia. Qed.

(** The loop passes exactly when every item is in stock, and never writes. *)
Lemma check_loop_pass items db :
  Forall (sufficient (products db)) items ->
  for_each items check_item db = (Ok tt, db).
Proof.
  induction 1 as [|item items Hitem _ IH]; [reflexivity|].
  rewrite for_each_cons. erewrite bind_ok by (apply check_item_sufficient, Hitem). exact IH.
Qed.

Lemma check_loop_fail items db :
  ~ Forall (sufficient (products db)) items ->
  exists code d,
    for_each items check_item db = (HTTPException code d, db) /\
    (code = 400 \/ code = 404) /\
    (Forall (known (products db)) items -> code = 400).
Proof.
  induction items as [|item items IH]; intros Hbad; [now destruct Hbad|].
  rewrite for_each_cons.
  destruct (item_cases (products db) item) as [Hn | [Hi | Hs]].
  - destruct (check_item_unknown item db Hn) as [d Hd].
    exists 404, d. erewrite bind_raise by exact Hd. split; [reflexivity|]. split; [now right|].
    intros Hk. inversion Hk as [|? ? [p Hp] _]; subst. unfold named_product in *. congruence.
  - destruct (check_item_insufficient item db Hi) as [d Hd].
    exists 400, d. erewrite bind_raise by exact Hd. split; [reflexivity|]. split; [now left|]. reflexivity.
  - erewrite bind_ok by (apply check_item_sufficient, Hs).
    destruct IH as (code & d & Hrun & Hcode & Hknown).
    { intros Hall. apply Hbad. now constructor. }
    exists code, d. split; [exact Hrun|]. split; [exact Hcode|].
    intros Hk. apply Hknown. now inversion Hk.
Qed.

Lemma sufficient_dec c items :
  Forall (sufficient c) items \/ ~ Forall (sufficient c) items.
Proof.
  induction items as [|item items [IH|IH]].
  - left. constructor.
  - destruct (item_cases c item) as [Hn | [Hi | Hs]].
    + right. intros H. inversion H as [|? ? (p & Hp & _) _]; subst. congruence.
    + right. intros H. inversion H as [|? ? Hs _]; subst. eapply sufficient_not_insufficient; eauto.
    + left. now constructor.
  - right. intros H. apply IH. now inversion H.
Qed.

(** A failed validation ends the request with the store untouched. *)
Lemma create_order_rejected order_data uuid4 utcnow db :
  ~ Forall (sufficient (products db)) (OrderCreate.items order_data) ->
  exists code d,
    create_order order_data uuid4 utcnow db = (HTTPException code d, db) /\
    (code = 400 \/ code = 404) /\
    (Forall (known (products db)) (OrderCreate.items order_data) -> code = 400).
Proof.
  intros Hbad. destruct (check_loop_fail _ _ Hbad) as (code & d & Hrun & Hcode & Hk).
  exists code, d. split; [|now split].
  unfold create_order. now erewrite bind_raise by exact Hrun.
Qed.

(** C1 (as amended): when some line item names a product whose current
    quantity is strictly less than the requested quantity, [create_order]
    fails and writes nothing: no product changes and no order is stored.
    The error is InsufficientStock (400) when every line item names an
    existing product; otherwise it is 400 or ProductNotFound (404),
    whichever the first offending item raises. *)
Theorem create_order_insufficient_stock order_data uuid4 utcnow db item :
  item ∈ OrderCreate.items order_data ->
  insufficient (products db) item ->
  exists code d,
    create_order order_data uuid4 utcnow db = (HTTPException code d, db) /\
    (code = 400 \/ code = 404) /\
    (Forall (known (products db)) (OrderCreate.items order_data) -> code = 400).
Proof.
  intros Hin Hi. apply create_order_rejected.
  intros Hall. rewrite Forall_forall in Hall.
  eapply sufficient_not_insufficient; [apply Hall, Hin | exact Hi].
Qed.

Lemma create_order_insufficient_stock_witness :
  exists code d,
    create_order (Market.order_for "A" [Market.line "P" "Tomate" 8.5%float 30]) "o-1" 5 Market.db
      = (HTTPException code d, Market.db) /\
    (code = 400 \/ code = 404) /\
    (Forall (known (products Market.db)) [Market.line "P" "Tomate" 8.5%float 30] -> code = 400).
Proof.
  apply (create_order_insufficient_stock
           (Market.order_for "A" [Market.line "P" "Tomate" 8.5%float 30]) "o-1" 5 Market.db
           (Market.line "P" "Tomate" 8.5%float 30)).
  - simpl. apply list_elem_of_here.
  - exists Market.tomate. split; [reflexivity | simpl; lia].
Defined.

(** The claim of C1 fails as stated: a missing product listed before the
    one that is short of stock makes the request fail with 404, not 400. *)
Lemma create_order_not_found_before_insufficient :
  let items := [Market.line "X" "Alface" 3%float 1; Market.line "P" "Tomate" 8.5%float 30] in
  (exists item, item ∈ items /\ insufficient (products Market.db) item) /\
  exists d, create_order (Market.order_for "A" items) "o-1" 5 Market.db
            = (HTTPException 404 d, Market.db).
Proof.
  split.
  - exists (Market.line "P" "Tomate" 8.5%float 30). split.
    + apply list_elem_of_further, list_elem_of_here.
    + exists Market.tomate. split; [reflexivity | simpl; lia].
  - eexists. reflexivity.
Qed.

(** ** Order creation: the decrement loop *)




Lemma decrement_item_run item db :
  decrement_item item db =
  (Ok tt, {| vendors := vendors db;
             products := snd (Collection.update_one (product_by_id (Item.product_id item))
                                (inc_quantidade (- Item.quantidade item)) (products db));
             orders := orders db |}).
Proof. reflexivity. Qed.

Lemma decrement_loop items db :
  for_each items decrement_item db =
  (Ok tt, {| vendors := vendors db;
             products := decremented items (products db);
             orders := orders db |}).
Proof.
  revert db. induction items as [|item items IH]; intros db.
  - simpl. unfold ret. now rewrite db_eta.
  - rewrite for_each_cons. erewrite bind_ok by apply decrement_item_run.
    rewrite IH. reflexivity.
Qed.

Lemma order_total_fold items :
  order_total items =
  fold_left (fun acc item =>
               PrimFloat.add acc
                 (PrimFloat.mul (Item.preco item) (Py.float_of_int (Item.quantidade item))))
            items (Py.float_of_int 0).
Proof.
  unfold order_total, Py.sum, Py.mul_float_int.
  generalize (Py.float_of_int 0). induction items as [|item items IH]; intros acc.
  - reflexivity.
  - simpl. apply IH.
Qed.

(** An accepted request: both loops, the total and the insertion. *)
Lemma create_order_accepted order_data uuid4 utcnow db :
  Forall (sufficient (products db)) (OrderCreate.items order_data) ->
  create_order order_data uuid4 utcnow db =
  (Ok (Order.of_dict (stored_order order_data uuid4 utcnow)),
   {| vendors := vendors db;
      products := decremented (OrderCreate.items order_data) (products db);
      orders := orders db ++ [stored_order order_data uuid4 utcnow] |}).
Proof.
  intros Hall. unfold create_order.
  erewrite bind_ok by (apply check_loop_pass, Hall).
  erewrite bind_ok by apply decrement_loop.
  unfold stored_order. rewrite <- order_total_fold. reflexivity.
Qed.

Lemma create_order_cases order_data uuid4 utcnow db :
  (Forall (sufficient (products db)) (OrderCreate.items order_data) /\
   create_order order_data uuid4 utcnow db =
   (Ok (Order.of_dict (stored_order order_data uuid4 utcnow)),
    {| vendors := vendors db;
       products := decremented (OrderCreate.items order_data) (products db);
       orders := orders db ++ [stored_order order_data uuid4 utcnow] |})) \/
  (exists code d, create_order order_data uuid4 utcnow db = (HTTPException code d, db)).
Proof.
  destruct (sufficient_dec (products db) (OrderCreate.items order_data)) as [H|H].
  - left. split; [exact H | now apply create_order_accepted].
  - right. destruct (create_order_rejected order_data uuid4 utcnow db H) as (c & d & Hr & _).
    now exists c, d.
Qed.

Lemma find_one_after_inc product_id product_id' n c :
  Collection.find_one (product_by_id product_id)
    (snd (Collection.update_one (product_by_id product_id') (inc_quantidade n) c)) =
  (if String.eqb product_id' product_id then inc_quantidade n else fun p => p)
    <$> Collection.find_one (product_by_id product_id) c.
Proof.
  unfold Collection.find_one, product_by_id.
  induction c as [|x c IH]; simpl; [reflexivity|].
  destruct (String.eqb_spec (Product.id x) product_id') as [E'|E']; simpl.
  - destruct (String.eqb_spec (Product.id x) product_id) as [E|E]; simpl.
    + rewrite <- E', <- E, String.eqb_refl. reflexivity.
    + destruct (String.eqb_spec product_id' product_id) as [E2|E2]; [congruence|].
      destruct (find _ c); reflexivity.
  - destruct (String.eqb_spec (Product.id x) product_id) as [E|E]; simpl.
    + destruct (String.eqb_spec product_id' product_id) as [E2|E2]; [congruence|]. reflexivity.
    + exact IH.
Qed.








(** ** Order creation: total, vendor and ownership *)

(** C3: the total of a created order, in the response and in the stored
    document, is the left-to-right sum over the request's line items of
    the request's price times the request's quantity; the stored products
    play no part in it, so the same request yields the same total against
    any store that accepts it. *)
Theorem create_order_total order_data uuid4 utcnow db order db' :
  create_order order_data uuid4 utcnow db = (Ok order, db') ->
  Order.total order =
    fold_left (fun acc item =>
                 PrimFloat.add acc
                   (PrimFloat.mul (Item.preco item) (Py.float_of_int (Item.quantidade item))))
              (OrderCreate.items order_data) (Py.float_of_int 0) /\
  (exists doc, last (orders db') = Some doc /\ OrderDoc.total doc = Order.total order) /\
  (forall uuid4' utcnow' db2 order2 db2',
      create_order order_data uuid4' utcnow' db2 = (Ok order2, db2') ->
      Order.total order2 = Order.total order).
Proof.
  intros Hrun.
  assert (Hshape : forall u t d o d',
             create_order order_data u t d = (Ok o, d') ->
             o = Order.of_dict (stored_order order_data u t) /\
             orders d' = orders d ++ [stored_order order_data u t]).
  { intros u t d o d' H.
    destruct (create_order_cases order_data u t d) as [[_ E] | (c & e & E)];
      rewrite E in H; [|discriminate].
    inversion H; subst. split; reflexivity. }
  destruct (Hshape _ _ _ _ _ Hrun) as [-> Hord].
  split; [reflexivity|]. split.
  - exists (stored_order order_data uuid4 utcnow). rewrite Hord, last_snoc. split; reflexivity.
  - intros u t d o d' H. destruct (Hshape _ _ _ _ _ H) as [-> _]. reflexivity.
Qed.

(** The request prices the tomatoes at 1.00 while the store lists them at
    8.50: the total is 3 x 1.00. *)
Lemma create_order_total_witness :
  Product.preco Market.tomate = 8.5%float /\
  exists order db',
    create_order (Market.order_for "A" [Market.line "P" "Tomate" 1%float 3]) "o-1" 5 Market.db
      = (Ok order, db') /\
    Order.total order = 3%float.
Proof.
  split; [reflexivity|].
  eexists _, _. split; [vm_compute; reflexivity|].
  edestruct (create_order_total
               (Market.order_for "A" [Market.line "P" "Tomate" 1%float 3]) "o-1" 5 Market.db)
    as [Htotal _]; [vm_compute; reflexivity|].
  rewrite Htotal. vm_compute. reflexivity.
Defined.

(** The claim of C5 fails as stated: [create_order] stores an order for a
    vendor id that no vendor record carries. *)
Lemma create_order_unknown_vendor :
  exists order db',
    create_order (Market.order_for "nobody" [Market.line "P" "Tomate" 8.5%float 3])
      "o-1" 5 Market.db = (Ok order, db') /\
    (exists doc, orders db' = [doc] /\ OrderDoc.vendor_id doc = Order.vendor_id order) /\
    ~ exists vendor, vendor ∈ vendors Market.db /\ Vendor.id vendor = Order.vendor_id order.
Proof.
  eexists _, _. split; [vm_compute; reflexivity|]. split.
  - eexists. split; reflexivity.
  - intros (v & Hv & Hid). simpl in Hid.
    apply elem_of_cons in Hv as [-> | Hv]; [discriminate|].
    apply elem_of_cons in Hv as [-> | Hv]; [discriminate|].
    inversion Hv.
Qed.

(** C5 (as amended): a created order carries the request's [vendor_id]
    as it came, in the response and in the stored document, and the
    vendors collection is neither consulted nor changed; so the order
    references an existing vendor exactly when the request's [vendor_id]
    is the id of a vendor record in the store. *)
Theorem create_order_vendor_unchecked order_data uuid4 utcnow db order db' :
  create_order order_data uuid4 utcnow db = (Ok order, db') ->
  Order.vendor_id order = OrderCreate.vendor_id order_data /\
  (exists doc, last (orders db') = Some doc /\
               OrderDoc.vendor_id doc = OrderCreate.vendor_id order_data) /\
  vendors db' = vendors db /\
  ((exists vendor, vendor ∈ vendors db /\ Vendor.id vendor = Order.vendor_id order) <->
   (exists vendor, vendor ∈ vendors db /\
                   Vendor.id vendor = OrderCreate.vendor_id order_data)).
Proof.
  intros Hrun.
  destruct (create_order_cases order_data uuid4 utcnow db) as [[_ E] | (c & e & E)];
    rewrite E in Hrun; [|discriminate].
  inversion Hrun; subst; simpl.
  split; [reflexivity|]. split.
  - eexists. rewrite last_snoc. split; reflexivity.
  - split; reflexivity.
Qed.

Lemma create_order_vendor_unchecked_witness :
  exists order db',
    create_order (Market.order_for "A" [Market.line "P" "Tomate" 8.5%float 3]) "o-1" 5 Market.db
      = (Ok order, db') /\
    Order.vendor_id order = "A"%string /\
    vendors db' = vendors Market.db.
Proof.
  eexists _, _. split; [vm_compute; reflexivity|].
  edestruct (create_order_vendor_unchecked
               (Market.order_for "A" [Market.line "P" "Tomate" 8.5%float 3]) "o-1" 5 Market.db)
    as (Hv & _ & Hvs & _); [vm_compute; reflexivity|].
  split; [exact Hv | exact Hvs].
Defined.

(** C6: [create_order] looks products up and decrements them by id alone.
    The request's [vendor_id] has no influence on the status of the
    response or on the products left behind; and there is a request,
    recorded under vendor A, with a line for a product that vendor B
    owns, that is accepted and takes the line's quantity off B's stock. *)
Theorem create_order_ignores_ownership :
  (forall db vendor_id vendor_id' nome telefone endereco observacoes items uuid4 utcnow,
      let run v := create_order
                     (OrderCreate.mk v nome telefone endereco observacoes items)
                     uuid4 utcnow db in
      http_status (fst (run vendor_id)) = http_status (fst (run vendor_id')) /\
      products (snd (run vendor_id)) = products (snd (run vendor_id'))) /\
  (exists order db' item product,
      create_order (Market.order_for "A" [Market.line "Q" "Ovos" 12%float 4]) "o-1" 5 Market.db
        = (Ok order, db') /\
      Order.vendor_id order = "A"%string /\
      item ∈ Order.items order /\
      named_product (products Market.db) item = Some product /\
      Product.vendor_id product = "B"%string /\
      Product.quantidade product = 10 /\
      named_product (products db') item = Some (inc_quantidade (-4) product) /\
      Product.quantidade (inc_quantidade (-4) product) = 6).
Proof.
  split.
  - intros db v v' n t e obs items u now. simpl.
    unfold create_order, bind; simpl.
    destruct (for_each items check_item db) as [[[]|c d] db1]; simpl; [|split; reflexivity].
    destruct (for_each items decrement_item db1) as [[[]|c d] db2]; simpl; split; reflexivity.
  - eexists _, _, (Market.line "Q" "Ovos" 12%float 4), Market.ovos.
    split; [vm_compute; reflexivity|]. split; [reflexivity|].
    split; [apply list_elem_of_here|]. repeat split.
Qed.

(** ** Catalogue: ownership *)

Lemma product_by_id_vendor_true product_id vendor_id p :
  product_by_id_vendor product_id vendor_id p = true <->
  Product.id p = product_id /\ Product.vendor_id p = vendor_id.
Proof.
  unfold product_by_id_vendor, product_by_id, product_by_vendor.
  now rewrite andb_true_iff, !String.eqb_eq.
Qed.

Lemma no_owned_product db product_id vendor_id :
  (forall p, p ∈ products db -> Product.id p = product_id ->
             Product.vendor_id p <> vendor_id) ->
  Collection.find_one (product_by_id_vendor product_id vendor_id) (products db) = None.
Proof.
  intros Hforeign. apply CollectionFacts.find_one_None. intros p Hp.
  destruct (product_by_id_vendor product_id vendor_id p) eqn:E; [|reflexivity].
  apply product_by_id_vendor_true in E as [E1 E2]. now destruct (Hforeign p Hp E1).
Qed.

(** C7: when every product with id P is owned by a vendor other than V
    (the product exists, but is not V's), [update_product] and
    [delete_product] called by V on P both fail with NotFound (404) and
    leave the store, the product included, as it was. *)
Theorem foreign_product_not_found db current_vendor product_id product_data :
  (exists p, p ∈ products db /\ Product.id p = product_id) ->
  (forall p, p ∈ products db -> Product.id p = product_id ->
             Product.vendor_id p <> Vendor.id current_vendor) ->
  (exists d, update_product product_id product_data current_vendor db
             = (HTTPException 404 d, db)) /\
  (exists d, delete_product product_id current_vendor db = (HTTPException 404 d, db)).
Proof.
  intros _ Hforeign. apply no_owned_product in Hforeign. split; eexists.
  - unfold update_product. erewrite bind_ok by apply db_products_query.
    rewrite Hforeign. reflexivity.
  - unfold delete_product, bind, db_products.
    rewrite (CollectionFacts.delete_one_miss _ _ Hforeign). simpl.
    rewrite db_eta. reflexivity.
Qed.

Lemma foreign_product_not_found_witness :
  (exists d, update_product "Q" (ProductCreate.mk "Ovos" "Duzia" 1%float 0 "Granja" None)
               Market.ana Market.db = (HTTPException 404 d, Market.db)) /\
  (exists d, delete_product "Q" Market.ana Market.db = (HTTPException 404 d, Market.db)).
Proof.
  apply (foreign_product_not_found Market.db Market.ana "Q").
  - exists Market.ovos. split; [|reflexivity].
    apply list_elem_of_further, list_elem_of_here.
  - intros p Hp Hid.
    apply elem_of_cons in Hp as [-> | Hp]; [discriminate|].
    apply elem_of_cons in Hp as [-> | Hp]; [discriminate|].
    inversion Hp.
Defined.

(** ** Order status *)

Lemma order_by_id_vendor_true order_id vendor_id o :
  order_by_id_vendor order_id vendor_id o = true <-> owned_order order_id vendor_id o.
Proof.
  unfold order_by_id_vendor, order_by_vendor, owned_order.
  now rewrite andb_true_iff, !String.eqb_eq.
Qed.

Lemma order_by_id_vendor_false order_id vendor_id o :
  order_by_id_vendor order_id vendor_id o = false <-> ~ owned_order order_id vendor_id o.
Proof.
  rewrite <- order_by_id_vendor_true. now destruct (order_by_id_vendor order_id vendor_id o).
Qed.

Lemma update_order_status_miss db order_id status new_status current_vendor :
  status !! "status"%string = Some new_status ->
  Collection.find_one (order_by_id_vendor order_id (Vendor.id current_vendor)) (orders db) = None ->
  exists d, update_order_status order_id status current_vendor db = (HTTPException 404 d, db).
Proof.
  intros Hbody Hnone. unfold update_order_status. rewrite Hbody.
  unfold bind, db_orders. rewrite (CollectionFacts.update_one_miss _ _ _ Hnone). simpl.
  rewrite db_eta. eexists. reflexivity.
Qed.

Lemma update_order_status_hit db order_id status new_status current_vendor c1 o c2 :
  status !! "status"%string = Some new_status ->
  orders db = c1 ++ o :: c2 ->
  owned_order order_id (Vendor.id current_vendor) o ->
  (forall x, x ∈ c1 -> ~ owned_order order_id (Vendor.id current_vendor) x) ->
  exists msg,
    update_order_status order_id status current_vendor db =
    (Ok msg, {| vendors := vendors db; products := products db;
                orders := c1 ++ set_status new_status o :: c2 |}).
Proof.
  intros Hbody Hsplit Ho Hc1. unfold update_order_status. rewrite Hbody.
  unfold bind, db_orders. rewrite Hsplit.
  rewrite CollectionFacts.update_one_hit.
  - simpl. eexists. reflexivity.
  - now apply order_by_id_vendor_true.
  - intros x Hx. now apply order_by_id_vendor_false, Hc1.
Qed.

(** C8: given a body that carries a status string, [update_order_status]
    fails with NotFound (404) exactly when no order with the given id is
    owned by the calling vendor.  When there is one, the call succeeds
    whatever the string and whatever the order's current status, and the
    store afterwards differs only in that order (the first such in the
    collection), whose status is now that string. *)
Theorem update_order_status_any_string db order_id status new_status current_vendor :
  status !! "status"%string = Some new_status ->
  let owned := owned_order order_id (Vendor.id current_vendor) in
  ((exists d, update_order_status order_id status current_vendor db
              = (HTTPException 404 d, db)) <->
   ~ exists o, o ∈ orders db /\ owned o) /\
  (http_status (fst (update_order_status order_id status current_vendor db)) = 404 <->
   ~ exists o, o ∈ orders db /\ owned o) /\
  ((exists o, o ∈ orders db /\ owned o) ->
   exists msg c1 o c2,
     orders db = c1 ++ o :: c2 /\ owned o /\ (forall x, x ∈ c1 -> ~ owned x) /\
     update_order_status order_id status current_vendor db =
     (Ok msg, {| vendors := vendors db; products := products db;
                 orders := c1 ++ set_status new_status o :: c2 |}) /\
     OrderDoc.status (set_status new_status o) = Some new_status /\
     Order.status (Order.of_dict (set_status new_status o)) = new_status).
Proof.
  intros Hbody owned.
  destruct (Collection.find_one (order_by_id_vendor order_id (Vendor.id current_vendor))
              (orders db)) as [o|] eqn:Hfind.
  - destruct (CollectionFacts.find_one_split _ _ _ Hfind) as (c1 & c2 & Hsplit & Ho & Hc1).
    apply order_by_id_vendor_true in Ho.
    assert (Hc1' : forall x, x ∈ c1 -> ~ owned x).
    { intros x Hx. now apply order_by_id_vendor_false, Hc1. }
    assert (Hex : exists o, o ∈ orders db /\ owned o).
    { exists o. split; [|exact Ho]. rewrite Hsplit. apply elem_of_app. right. constructor. }
    destruct (update_order_status_hit db order_id status new_status current_vendor
                c1 o c2 Hbody Hsplit Ho Hc1') as [msg Hrun].
    split; [|split].
    + split; [|now intros []]. intros [d Hd]. rewrite Hrun in Hd. discriminate.
    + split; [|now intros []]. rewrite Hrun. simpl. discriminate.
    + intros _. exists msg, c1, o, c2.
      split; [exact Hsplit|]. split; [exact Ho|]. split; [exact Hc1'|].
      split; [exact Hrun|]. split; reflexivity.
  - pose proof (proj1 (CollectionFacts.find_one_None _ _) Hfind) as Hnone.
    assert (Hno : ~ exists o, o ∈ orders db /\ owned o).
    { intros (o & Ho & Hown). apply order_by_id_vendor_true in Hown.
      rewrite (Hnone o Ho) in Hown. discriminate. }
    destruct (update_order_status_miss db order_id status new_status current_vendor
                Hbody Hfind) as [d Hrun].
    split; [|split].
    + split; [intros _; exact Hno | intros _; now exists d].
    + split; [intros _; exact Hno | intros _; now rewrite Hrun].
    + intros Hex. now destruct Hno.
Qed.

Lemma update_order_status_any_string_witness :
  http_status (fst (update_order_status "o-1" {[ "status"%string := "voando"%string ]}
                      Market.ana Market.sold)) <> 404 /\
  exists msg db',
    update_order_status "o-1" {[ "status"%string := "voando"%string ]} Market.ana Market.sold
    = (Ok msg, db').
Proof.
  destruct (update_order_status_any_string Market.sold "o-1"
              {[ "status"%string := "voando"%string ]} "voando" Market.ana
              (lookup_singleton_eq _ _)) as (_ & H404 & Hok).
  assert (Hex : exists o, o ∈ orders Market.sold /\
                          owned_order "o-1" (Vendor.id Market.ana) o).
  { eexists. split; [apply list_elem_of_here|]. split; reflexivity. }
  split.
  - intros E. now apply H404 in E.
  - destruct (Hok Hex) as (msg & c1 & o & c2 & _ & _ & _ & Hrun & _).
    eexists _, _. exact Hrun.
Defined.

(** ** Listings *)

Lemma take_to_list {A} (n : Z) (cur : list A) :
  Collection.to_list n (Collection.limit n cur) = take (Z.to_nat n) cur.
Proof. unfold Collection.to_list, Collection.limit. rewrite take_take. f_equal. lia. Qed.

Lemma Query_absent name default ge le db :
  Query name default ge le None db = (Ok default, db).
Proof. reflexivity. Qed.

Lemma Query_in_range name default lo hi v db :
  match lo with Some b => b <= v | None => True end ->
  match hi with Some b => v <= b | None => True end ->
  Query name default lo hi (Some v) db = (Ok v, db).
Proof.
  intros Hlo Hhi. unfold Query.
  destruct lo as [b|]; [apply Z.ltb_ge in Hlo; rewrite Hlo|];
    (destruct hi as [b'|]; [apply Z.ltb_ge in Hhi; rewrite Hhi|]); reflexivity.
Qed.

Lemma Query_out_of_range name default lo hi v db :
  match lo with Some b => v < b | None => False end \/
  match hi with Some b => b < v | None => False end ->
  Query name default lo hi (Some v) db = (HTTPException 422 name, db).
Proof.
  intros H. unfold Query.
  destruct lo as [b|]; [destruct (Z.ltb_spec v b); [reflexivity|]|];
    (destruct hi as [b'|]; [destruct (Z.ltb_spec b' v); [reflexivity|]|]);
    simpl in H; exfalso; destruct H; (lia || assumption).
Qed.

(** The validation of [skip] and [limit] in front of a listing. *)
Lemma paginated_accepts {A} (h : Vendor.t -> Z -> Z -> handler A)
    credentials vendor skip limit db :
  get_current_vendor credentials db = (Ok vendor, db) ->
  0 <= default 0 skip -> 1 <= default 20 limit <= 100 ->
  paginated h credentials skip limit db = h vendor (default 0 skip) (default 20 limit) db.
Proof.
  intros Hauth Hskip Hlimit. unfold paginated, Depends.
  erewrite bind_ok by exact Hauth.
  assert (Hs : Query "skip" 0 (Some 0) None skip db = (Ok (default 0 skip), db)).
  { destruct skip as [s|]; [apply Query_in_range; simpl in *; [lia | exact I] | reflexivity]. }
  assert (Hl : Query "limit" 20 (Some 1) (Some 100) limit db = (Ok (default 20 limit), db)).
  { destruct limit as [l|]; [apply Query_in_range; simpl in *; lia | reflexivity]. }
  erewrite bind_ok by exact Hs. erewrite bind_ok by exact Hl. reflexivity.
Qed.

Lemma paginated_rejects {A} (h : Vendor.t -> Z -> Z -> handler A)
    credentials vendor skip limit db :
  get_current_vendor credentials db = (Ok vendor, db) ->
  ~ (0 <= default 0 skip /\ 1 <= default 20 limit <= 100) ->
  exists d, paginated h credentials skip limit db = (HTTPException 422 d, db).
Proof.
  intros Hauth Hbad. unfold paginated, Depends.
  erewrite bind_ok by exact Hauth.
  destruct skip as [s|]; simpl in Hbad.
  - destruct (Z_lt_le_dec s 0) as [Hs|Hs].
    + eexists. erewrite bind_raise; [reflexivity|].
      apply Query_out_of_range. left. exact Hs.
    + erewrite bind_ok by (apply Query_in_range; simpl; [lia | exact I]).
      destruct limit as [l|]; simpl in Hbad; [|lia].
      eexists. erewrite bind_raise; [reflexivity|].
      apply Query_out_of_range. simpl. lia.
  - rewrite (bind_ok _ _ _ _ _ (Query_absent _ _ _ _ db)).
    destruct limit as [l|]; simpl in Hbad; [|lia].
    eexists. erewrite bind_raise; [reflexivity|].
    apply Query_out_of_range. simpl. lia.
Qed.

(** The claim of C9 fails as stated: a limit of 101, or of 0, is not
    served with 100, or 1, items at most; the request is rejected with a
    validation error (422) on both listings. *)
Lemma listing_limit_rejected :
  GET_products_my (Token "A") None (Some 101) Market.db
    = (HTTPException 422 "limit", Market.db) /\
  GET_products_my (Token "A") None (Some 0) Market.db
    = (HTTPException 422 "limit", Market.db) /\
  GET_orders_my (Token "A") None (Some 101) Market.sold
    = (HTTPException 422 "limit", Market.sold) /\
  GET_orders_my (Token "A") (Some 0) (Some 0) Market.sold
    = (HTTPException 422 "limit", Market.sold).
Proof. repeat split; vm_compute; reflexivity. Qed.

(** C9 (as amended): on both listings, for an authenticated vendor, a
    request whose limit (20 when absent) lies in [1,100] and whose skip
    (0 when absent) is at least 0 is served with exactly that limit and
    skip: the vendor's documents in insertion order, the first [skip]
    dropped, at most [limit] returned, with the count of all of them.  Any
    other request is rejected with a validation error (HTTP 422) and is
    not served; no limit is replaced by a bound. *)
Theorem listing_limit_validated db credentials vendor skip limit :
  get_current_vendor credentials db = (Ok vendor, db) ->
  let s := default 0 skip in
  let l := default 20 limit in
  (0 <= s /\ 1 <= l <= 100 ->
   let mine := List.filter (product_by_vendor (Vendor.id vendor)) (products db) in
   let ours := List.filter (order_by_vendor (Vendor.id vendor)) (orders db) in
   GET_products_my credentials skip limit db =
     (Ok {| page_total := Py.len mine;
            page_items := take (Z.to_nat l) (drop (Z.to_nat s) mine) |}, db) /\
   GET_orders_my credentials skip limit db =
     (Ok {| page_total := Py.len ours;
            page_items := map Order.of_dict (take (Z.to_nat l) (drop (Z.to_nat s) ours)) |}, db) /\
   (length (take (Z.to_nat l) (drop (Z.to_nat s) mine)) <= Z.to_nat l)%nat /\
   (length (take (Z.to_nat l) (drop (Z.to_nat s) ours)) <= Z.to_nat l)%nat) /\
  (~ (0 <= s /\ 1 <= l <= 100) ->
   (exists d, GET_products_my credentials skip limit db = (HTTPException 422 d, db)) /\
   (exists d, GET_orders_my credentials skip limit db = (HTTPException 422 d, db))).
Proof.
  intros Hauth s l. split.
  - intros [Hs Hl]. simpl.
    unfold GET_products_my, GET_orders_my.
    rewrite !(paginated_accepts _ _ _ _ _ _ Hauth Hs Hl).
    split; [|split; [|split; rewrite length_take; lia]].
    + unfold get_my_products.
      erewrite bind_ok by apply db_products_query.
      erewrite bind_ok by apply db_products_query.
      rewrite take_to_list. reflexivity.
    + unfold get_my_orders.
      erewrite bind_ok by apply db_orders_query.
      erewrite bind_ok by apply db_orders_query.
      rewrite take_to_list. reflexivity.
  - intros Hbad. split; eapply paginated_rejects; eassumption.
Qed.

Lemma listing_limit_validated_witness :
  GET_products_my (Token "A") None (Some 100) Market.db
    = (Ok {| page_total := 1; page_items := [Market.tomate] |}, Market.db) /\
  exists d, GET_orders_my (Token "A") (Some (-1)) None Market.db
            = (HTTPException 422 d, Market.db).
Proof.
  split.
  - destruct (listing_limit_validated Market.db (Token "A") Market.ana None (Some 100) eq_refl)
      as [Hserved _].
    destruct Hserved as (Hproducts & _); [simpl; lia|]. exact Hproducts.
  - destruct (listing_limit_validated Market.db (Token "A") Market.ana (Some (-1)) None eq_refl)
      as [_ Hrejected].
    apply Hrejected. simpl. lia.
Defined.

(** ** Dashboard *)

Lemma get_dashboard_run db current_vendor :
  get_dashboard current_vendor db =
  (Ok {| total_vendas :=
           Py.sum (map OrderDoc.total
                     (take 1000 (List.filter (order_by_vendor (Vendor.id current_vendor))
                                   (orders db))));
         quantidade_pedidos :=
           Py.len (take 1000 (List.filter (order_by_vendor (Vendor.id current_vendor))
                                (orders db))) |}, db).
Proof.
  unfold get_dashboard. erewrite bind_ok by apply db_orders_query. reflexivity.
Qed.

(** Up to a thousand orders the dashboard adds up every order of the
    vendor, whatever its status: the filter is on [vendor_id] alone. *)
Lemma get_dashboard_up_to_1000 db current_vendor :
  (length (List.filter (order_by_vendor (Vendor.id current_vendor)) (orders db)) <= 1000)%nat ->
  get_dashboard current_vendor db =
  (Ok {| total_vendas :=
           Py.sum (map OrderDoc.total
                     (List.filter (order_by_vendor (Vendor.id current_vendor)) (orders db)));
         quantidade_pedidos :=
           Py.len (List.filter (order_by_vendor (Vendor.id current_vendor)) (orders db)) |},
   db).
Proof.
  intros Hlen. rewrite get_dashboard_run. now rewrite take_ge by exact Hlen.
Qed.

(** The dashboard does not look at the status: the same orders with any
    status written on them give the same figures. *)
Lemma get_dashboard_status_blind db current_vendor s :
  fst (get_dashboard current_vendor
         {| vendors := vendors db; products := products db;
            orders := map (set_status s) (orders db) |}) =
  fst (get_dashboard current_vendor db).
Proof.
  rewrite !get_dashboard_run. simpl.
  assert (Hfilter : forall l,
             List.filter (order_by_vendor (Vendor.id current_vendor)) (map (set_status s) l) =
             map (set_status s) (List.filter (order_by_vendor (Vendor.id current_vendor)) l)).
  { induction l as [|o l IH]; simpl; [reflexivity|].
    change (order_by_vendor (Vendor.id current_vendor) (set_status s o))
      with (order_by_vendor (Vendor.id current_vendor) o).
    destruct (order_by_vendor (Vendor.id current_vendor) o); simpl; now rewrite IH. }
  rewrite Hfilter, firstn_map, map_map. unfold Py.len. rewrite length_map.
  reflexivity.
Qed.

(** C10, at a vendor with 1001 orders of 1.00 each, all placed through
    [create_order]: the orders add up to 1001.00, the dashboard reports
    1000.00 over 1000 orders, because it reads at most a thousand
    documents. *)
Theorem get_dashboard_drops_orders_past_1000 :
  let db := Market.busy 1001 in
  let mine := List.filter (order_by_vendor (Vendor.id Market.ana)) (orders db) in
  length mine = 1001%nat /\
  Py.sum (map OrderDoc.total mine) = 1001%float /\
  fst (get_dashboard Market.ana db) =
    Ok {| total_vendas := 1000%float; quantidade_pedidos := 1000 |}.
Proof. vm_compute. repeat split. Qed.

(** ** The stock invariant *)

Module StockFacts.
Section Preservation.
Context (P : Product.t -> Prop).

Lemma update_one_Forall q u c :
  Forall P c -> (forall d, P d -> q d = true -> P (u d)) ->
  Forall P (snd (Collection.update_one q u c)).
Proof.
  intros Hc Hu. induction Hc as [|d c Hd Hc IH]; simpl; [constructor|].
  destruct (q d) eqn:E; simpl; constructor; auto.
Qed.

Lemma delete_one_Forall q c :
  Forall P c -> Forall P (snd (Collection.delete_one q c)).
Proof.
  intros Hc. induction Hc as [|d c Hd Hc IH]; simpl; [constructor|].
  destruct (q d); simpl; [exact Hc | now constructor].
Qed.
End Preservation.
End StockFacts.

Lemma get_current_vendor_cases credentials db :
  (exists vendor, get_current_vendor credentials db = (Ok vendor, db)) \/
  (exists code d, get_current_vendor credentials db = (HTTPException code d, db)).
Proof.
  destruct credentials as [| |vendor_id]; simpl.
  - right. now eexists _, _.
  - right. now eexists _, _.
  - unfold get_current_vendor. erewrite bind_ok by apply db_vendors_query.
    destruct (Collection.find_one _ (vendors db)) as [v|].
    + left. now exists v.
    + right. now eexists _, _.
Qed.

Lemma Depends_cases {A} credentials (h : Vendor.t -> handler A) db :
  (exists vendor, Depends credentials h db = h vendor db) \/
  (exists code d, Depends credentials h db = (HTTPException code d, db)).
Proof.
  unfold Depends.
  destruct (get_current_vendor_cases credentials db) as [[v Hv] | (c & d & Hv)].
  - left. exists v. now erewrite bind_ok by exact Hv.
  - right. exists c, d. now erewrite bind_raise by exact Hv.
Qed.

(** A route behind [Depends] keeps whatever its handler keeps. *)
Lemma Depends_preserves {A} (I : Db -> Prop) credentials (h : Vendor.t -> handler A) db :
  I db -> (forall vendor, I (snd (h vendor db))) -> I (snd (Depends credentials h db)).
Proof.
  intros Hdb Hh. destruct (Depends_cases credentials h db) as [[v ->] | (c & d & ->)];
    [apply Hh | exact Hdb].
Qed.

Lemma Query_db name default ge le raw db : snd (Query name default ge le raw db) = db.
Proof.
  unfold Query. destruct raw as [v|]; [|reflexivity].
  destruct ge as [b|]; [destruct (v <? b); [reflexivity|]|];
    (destruct le as [b'|]; [destruct (b' <? v)|]); reflexivity.
Qed.

Lemma paginated_reads {A} (h : Vendor.t -> Z -> Z -> handler A) credentials skip limit db :
  (forall vendor s l, snd (h vendor s l db) = db) ->
  snd (paginated h credentials skip limit db) = db.
Proof.
  intros Hh. unfold paginated.
  apply (Depends_preserves (fun db' => db' = db)); [reflexivity|].
  intros vendor. unfold bind.
  pose proof (Query_db "skip" 0 (Some 0) None skip db) as Hs.
  destruct (Query "skip" 0 (Some 0) None skip db) as [[s|c d] db1]; simpl in Hs; subst db1;
    [|reflexivity].
  pose proof (Query_db "limit" 20 (Some 1) (Some 100) limit db) as Hl.
  destruct (Query "limit" 20 (Some 1) (Some 100) limit db) as [[l|c d] db1]; simpl in Hl;
    subst db1; [apply Hh | reflexivity].
Qed.

Lemma get_my_products_reads vendor s l db : snd (get_my_products vendor s l db) = db.
Proof.
  unfold get_my_products.
  erewrite bind_ok by apply db_products_query.
  erewrite bind_ok by apply db_products_query. reflexivity.
Qed.

Lemma get_my_orders_reads vendor s l db : snd (get_my_orders vendor s l db) = db.
Proof.
  unfold get_my_orders.
  erewrite bind_ok by apply db_orders_query.
  erewrite bind_ok by apply db_orders_query. reflexivity.
Qed.

Lemma register_vendor_products vendor_data hashed uuid4 utcnow db :
  products (snd (register_vendor vendor_data hashed uuid4 utcnow db)) = products db.
Proof.
  unfold register_vendor. erewrite bind_ok by apply db_vendors_query.
  destruct (Collection.find_one _ (vendors db)); reflexivity.
Qed.

Lemma create_product_products product_data vendor uuid4 utcnow db :
  exists p,
    Product.quantidade p = ProductCreate.quantidade product_data /\
    products (snd (create_product product_data vendor uuid4 utcnow db)) = products db ++ [p].
Proof. eexists. split; [|reflexivity]. reflexivity. Qed.

Lemma update_product_nonneg product_id product_data vendor db :
  0 <= ProductCreate.quantidade product_data ->
  stock_nonneg db -> stock_nonneg (snd (update_product product_id product_data vendor db)).
Proof.
  intros Hq Hdb. unfold update_product.
  erewrite bind_ok by apply db_products_query.
  destruct (Collection.find_one _ (products db)); [|exact Hdb].
  unfold bind at 1. unfold db_products at 1. cbv beta iota zeta.
  set (db1 := {| vendors := _; products := _; orders := _ |}).
  assert (H1 : stock_nonneg db1).
  { unfold stock_nonneg, db1; simpl.
    apply StockFacts.update_one_Forall; [exact Hdb|]. intros d _ _. exact Hq. }
  erewrite bind_ok by apply db_products_query.
  destruct (Collection.find_one _ (products db1)); exact H1.
Qed.

Lemma delete_product_nonneg product_id vendor db :
  stock_nonneg db -> stock_nonneg (snd (delete_product product_id vendor db)).
Proof.
  intros Hdb. unfold delete_product, bind, db_products. cbv beta iota zeta.
  destruct (fst (Collection.delete_one _ (products db)) =? 0); simpl;
    apply StockFacts.delete_one_Forall, Hdb.
Qed.

Lemma update_order_status_products order_id status vendor db :
  products (snd (update_order_status order_id status vendor db)) = products db.
Proof.
  unfold update_order_status. destruct (status !! _); [|reflexivity].
  unfold bind, db_orders. cbv beta iota zeta.
  destruct (fst (Collection.update_one _ _ (orders db)) =? 0); reflexivity.
Qed.

(** One decrement, of an item that passed the check, splits the
    collection at the product it names. *)
Lemma decrement_sufficient c item :
  sufficient c item ->
  exists c1 p c2,
    c = c1 ++ p :: c2 /\
    Item.quantidade item <= Product.quantidade p /\
    snd (Collection.update_one (product_by_id (Item.product_id item))
           (inc_quantidade (- Item.quantidade item)) c)
    = c1 ++ inc_quantidade (- Item.quantidade item) p :: c2.
Proof.
  intros (p & Hp & Hle).
  destruct (CollectionFacts.find_one_split _ _ _ Hp) as (c1 & c2 & -> & Hq & Hc1).
  exists c1, p, c2. split; [reflexivity|]. split; [exact Hle|].
  now rewrite CollectionFacts.update_one_hit.
Qed.

(** A decrement under one id leaves the lookups under other ids alone. *)
Lemma sufficient_after_other c item item' :
  Item.product_id item <> Item.product_id item' ->
  sufficient c item' ->
  sufficient (snd (Collection.update_one (product_by_id (Item.product_id item))
                     (inc_quantidade (- Item.quantidade item)) c)) item'.
Proof.
  intros Hne (p & Hp & Hle). exists p. split; [|exact Hle].
  unfold named_product in *. rewrite find_one_after_inc, Hp.
  destruct (String.eqb_spec (Item.product_id item) (Item.product_id item')); [contradiction|].
  reflexivity.
Qed.

Lemma decremented_nonneg items c :
  NoDup (map Item.product_id items) ->
  Forall (sufficient c) items ->
  Forall (fun p => 0 <= Product.quantidade p) c ->
  Forall (fun p => 0 <= Product.quantidade p) (decremented items c).
Proof.
  revert c. induction items as [|item items IH]; intros c Hnodup Hall Hc; [exact Hc|].
  change (decremented (item :: items) c) with
    (decremented items (snd (Collection.update_one (product_by_id (Item.product_id item))
                               (inc_quantidade (- Item.quantidade item)) c))).
  simpl in Hnodup. apply NoDup_cons in Hnodup as [Hfresh Hnodup].
  apply Forall_cons in Hall as [Hitem Hall].
  apply IH; [exact Hnodup| |].
  - rewrite Forall_forall in Hall |- *. intros item' Hin.
    apply sufficient_after_other; [|now apply Hall].
    intros E. apply Hfresh. rewrite E. apply list_elem_of_In, in_map, list_elem_of_In, Hin.
  - destruct (decrement_sufficient c item Hitem) as (c1 & p & c2 & -> & Hle & ->).
    apply Forall_app in Hc as [Hc1 Hc2]. apply Forall_cons in Hc2 as [Hp Hc2].
    apply Forall_app. split; [exact Hc1|]. constructor; [simpl; lia | exact Hc2].
Qed.

Lemma create_order_nonneg order_data uuid4 utcnow db :
  NoDup (map Item.product_id (OrderCreate.items order_data)) ->
  stock_nonneg db -> stock_nonneg (snd (create_order order_data uuid4 utcnow db)).
Proof.
  intros Hnodup Hdb.
  destruct (create_order_cases order_data uuid4 utcnow db) as [[Hall ->] | (c & d & ->)];
    [|exact Hdb].
  now apply decremented_nonneg.
Qed.

Lemma exec_nonneg r db :
  admissible r -> stock_nonneg db -> stock_nonneg (exec r db).
Proof.
  intros Hr Hdb. destruct r; simpl in *; try exact Hdb.
  - unfold stock_nonneg. now rewrite register_vendor_products.
  - apply (Depends_preserves stock_nonneg); [exact Hdb|]. intros vendor.
    destruct (create_product_products product_data vendor uuid4 utcnow db) as (p & Hp & Hps).
    unfold stock_nonneg. rewrite Hps. apply Forall_app. split; [exact Hdb|].
    constructor; [lia | constructor].
  - unfold GET_products_my. rewrite paginated_reads; [exact Hdb|].
    intros; apply get_my_products_reads.
  - apply (Depends_preserves stock_nonneg); [exact Hdb|]. intros vendor.
    now apply update_product_nonneg.
  - apply (Depends_preserves stock_nonneg); [exact Hdb|]. intros vendor.
    now apply delete_product_nonneg.
  - now apply create_order_nonneg.
  - unfold GET_orders_my. rewrite paginated_reads; [exact Hdb|].
    intros; apply get_my_orders_reads.
  - apply (Depends_preserves stock_nonneg); [exact Hdb|]. intros vendor.
    unfold stock_nonneg. now rewrite update_order_status_products.
  - apply (Depends_preserves stock_nonneg); [exact Hdb|]. intros vendor.
    now rewrite get_dashboard_run.
Qed.

(** The claim of C4 fails as stated: no handler checks the sign of a
    quantity, so [create_product] and [update_product] store a negative
    one as given. *)
Lemma negative_quantity_accepted :
  stock_nonneg Market.db /\
  ~ stock_nonneg
      (exec (CreateProduct (Token "A")
               (ProductCreate.mk "Alface" "Alface crespa" 3%float (-1) "Verduras" None)
               "p-3" 9) Market.db) /\
  ~ stock_nonneg
      (exec (UpdateProduct (Token "A") "P"
               (ProductCreate.mk "Tomate" "Tomate organico" 8.5%float (-1) "Verduras" None))
         Market.db).
Proof.
  split; [|split].
  - unfold stock_nonneg. simpl. repeat (apply Forall_cons_2; [simpl; lia|]). apply Forall_nil_2.
  - intros H. unfold stock_nonneg in H. vm_compute in H.
    apply Forall_inv_tail, Forall_inv_tail, Forall_inv in H. now apply H.
  - intros H. unfold stock_nonneg in H. vm_compute in H.
    apply Forall_inv in H. now apply H.
Qed.

(** Two lines for the same product are each checked against the full
    stock and both taken off it: 25 - 20 - 20. *)
Lemma repeated_lines_overdraw :
  let twice := [Market.line "P" "Tomate" 8.5%float 20; Market.line "P" "Tomate" 8.5%float 20] in
  Forall (sufficient (products Market.db)) twice /\
  Product.quantidade <$>
    named_product (products (exec (CreateOrder (Market.order_for "A" twice) "o-1" 5) Market.db))
      (Market.line "P" "Tomate" 8.5%float 20)
  = Some (-15).
Proof.
  split.
  - repeat constructor; exists Market.tomate; (split; [reflexivity | simpl; lia]).
  - vm_compute. reflexivity.
Qed.

(** C4 (as amended): for every sequence of API requests run one at a
    time from a store whose quantities are all non-negative, the
    quantities are all non-negative after each request, provided that
    every [create_product] and [update_product] in the sequence is given
    a non-negative quantity and every [create_order] names each product
    in at most one line. *)
Theorem stock_stays_nonneg rs db :
  stock_nonneg db -> Forall admissible rs -> Forall stock_nonneg (trace rs db).
Proof.
  intros Hdb Hrs. revert db Hdb.
  induction Hrs as [|r rs Hr _ IH]; intros db Hdb; simpl; constructor.
  - now apply exec_nonneg.
  - apply IH. now apply exec_nonneg.
Qed.

Lemma stock_stays_nonneg_witness :
  Forall stock_nonneg
    (trace [CreateProduct (Token "A")
              (ProductCreate.mk "Alface" "Alface crespa" 3%float 40 "Verduras" None) "p-3" 9;
            CreateOrder (Market.order_for "A" [Market.line "P" "Tomate" 8.5%float 25;
                                               Market.line "p-3" "Alface" 3%float 2]) "o-1" 10;
            UpdateProduct (Token "A") "P"
              (ProductCreate.mk "Tomate" "Tomate organico" 9%float 0 "Verduras" None);
            DeleteProduct (Token "B") "Q"]
       Market.db).
Proof.
  apply stock_stays_nonneg.
  - unfold stock_nonneg. simpl. repeat (apply Forall_cons_2; [simpl; lia|]). apply Forall_nil_2.
  - apply Forall_cons_2; [simpl; lia|].
    apply Forall_cons_2; [simpl; apply (bool_decide_unpack _); vm_compute; exact I|].
    apply Forall_cons_2; [simpl; lia|].
    apply Forall_cons_2; [exact I|]. apply Forall_nil_2.
Defined.

(** * Further properties of the routes *)

(** ** What each handler leaves of the store *)

Lemma update_product_run product_id product_data vendor db :
  update_product product_id product_data vendor db =
  match Collection.find_one (product_by_id_vendor product_id (Vendor.id vendor)) (products db) with
  | None => (HTTPException 404 "Produto não encontrado", db)
  | Some _ =>
      let db1 := {| vendors := vendors db;
                    products := snd (Collection.update_one (product_by_id product_id)
                                       (set_product product_data) (products db));
                    orders := orders db |} in
      match Collection.find_one (product_by_id product_id) (products db1) with
      | Some updated => (Ok updated, db1)
      | None => (HTTPException 500 "Internal Server Error", db1)
      end
  end.
Proof.
  unfold update_product. erewrite bind_ok by apply db_products_query.
  destruct (Collection.find_one _ (products db)); [|reflexivity].
  unfold bind at 1. unfold db_products at 1. cbv beta iota zeta.
  erewrite bind_ok by apply db_products_query.
  simpl. destruct (Collection.find_one _ _); reflexivity.
Qed.

Lemma delete_product_run product_id vendor db :
  delete_product product_id vendor db =
  let r := Collection.delete_one (product_by_id_vendor product_id (Vendor.id vendor))
             (products db) in
  let db1 := {| vendors := vendors db; products := snd r; orders := orders db |} in
  if fst r =? 0 then (HTTPException 404 "Produto não encontrado", db1)
  else (Ok "Produto excluído com sucesso"%string, db1).
Proof.
  unfold delete_product, bind, db_products. cbv beta iota zeta.
  destruct (fst (Collection.delete_one _ (products db)) =? 0); reflexivity.
Qed.

Lemma update_order_status_run order_id status vendor db :
  update_order_status order_id status vendor db =
  match status !! "status"%string with
  | None => (HTTPException 500 "Internal Server Error", db)
  | Some new_status =>
      let r := Collection.update_one (order_by_id_vendor order_id (Vendor.id vendor))
                 (set_status new_status) (orders db) in
      let db1 := {| vendors := vendors db; products := products db; orders := snd r |} in
      if fst r =? 0 then (HTTPException 404 "Pedido não encontrado", db1)
      else (Ok "Status atualizado com sucesso"%string, db1)
  end.
Proof.
  unfold update_order_status. destruct (status !! _); [|reflexivity].
  unfold bind, db_orders. cbv beta iota zeta.
  destruct (fst (Collection.update_one _ _ (orders db)) =? 0); reflexivity.
Qed.

Lemma register_vendor_run vendor_data hashed uuid4 utcnow db :
  register_vendor vendor_data hashed uuid4 utcnow db =
  match Collection.find_one
          (fun v => String.eqb (Vendor.email v) (VendorCreate.email vendor_data))
          (vendors db) with
  | Some _ => (HTTPException 400 "Email já cadastrado", db)
  | None =>
      let vendor := {| Vendor.id := uuid4;
                       Vendor.nome := VendorCreate.nome vendor_data;
                       Vendor.email := VendorCreate.email vendor_data;
                       Vendor.telefone := VendorCreate.telefone vendor_data;
                       Vendor.senha := hashed;
                       Vendor.nome_loja := VendorCreate.nome_loja vendor_data;
                       Vendor.created_at := utcnow |} in
      (Ok (Token uuid4, VendorResponse.of_dict vendor),
       {| vendors := vendors db ++ [vendor]; products := products db; orders := orders db |})
  end.
Proof.
  unfold register_vendor. erewrite bind_ok by apply db_vendors_query.
  destruct (Collection.find_one _ (vendors db)); reflexivity.
Qed.

(** Every request leaves the vendors as they were, or appends one whose
    email no vendor had. *)
Lemma exec_vendors r db :
  vendors (exec r db) = vendors db \/
  exists v, vendors (exec r db) = vendors db ++ [v] /\
            forall v', v' ∈ vendors db -> Vendor.email v' <> Vendor.email v.
Proof.
  destruct r; simpl; try (left; reflexivity).
  - rewrite register_vendor_run.
    destruct (Collection.find_one _ (vendors db)) eqn:E; [left; reflexivity|].
    right. eexists. split; [reflexivity|]. simpl.
    intros v' Hv' Heq. apply CollectionFacts.find_one_None with (d := v') in E; [|exact Hv'].
    simpl in E. rewrite Heq, String.eqb_refl in E. discriminate.
  - left. apply (Depends_preserves (fun db' => vendors db' = vendors db)); [reflexivity|].
    intros; reflexivity.
  - left. unfold GET_products_my. rewrite paginated_reads; [reflexivity|].
    intros; apply get_my_products_reads.
  - left. apply (Depends_preserves (fun db' => vendors db' = vendors db)); [reflexivity|].
    intros v. rewrite update_product_run.
    destruct (Collection.find_one _ (products db)); [|reflexivity].
    cbv zeta. destruct (Collection.find_one _ _); reflexivity.
  - left. apply (Depends_preserves (fun db' => vendors db' = vendors db)); [reflexivity|].
    intros v. rewrite delete_product_run. cbv zeta.
    destruct (_ =? 0); reflexivity.
  - left. destruct (create_order_cases order_data uuid4 utcnow db) as [[_ ->] | (c & d & ->)];
      reflexivity.
  - left. unfold GET_orders_my. rewrite paginated_reads; [reflexivity|].
    intros; apply get_my_orders_reads.
  - left. apply (Depends_preserves (fun db' => vendors db' = vendors db)); [reflexivity|].
    intros v. rewrite update_order_status_run.
    destruct (status !! _); [|reflexivity]. cbv zeta. destruct (_ =? 0); reflexivity.
  - left. apply (Depends_preserves (fun db' => vendors db' = vendors db)); [reflexivity|].
    intros v. now rewrite get_dashboard_run.
Qed.

(** ** Registration, login and the bearer token *)

Lemma email_taken_or_fresh email c :
  (exists v, Collection.find_one (fun v => String.eqb (Vendor.email v) email) c = Some v /\
             v ∈ c /\ Vendor.email v = email) \/
  (Collection.find_one (fun v => String.eqb (Vendor.email v) email) c = None /\
   forall v, v ∈ c -> Vendor.email v <> email).
Proof.
  destruct (Collection.find_one _ c) as [v|] eqn:E.
  - left. exists v. split; [reflexivity|].
    apply CollectionFacts.find_one_Some in E as [Hin Heq]. split; [exact Hin|].
    now apply String.eqb_eq.
  - right. split; [reflexivity|]. intros v Hv Heq.
    apply CollectionFacts.find_one_None with (d := v) in E; [|exact Hv].
    simpl in E. rewrite Heq, String.eqb_refl in E. discriminate.
Qed.

(** X1: [register_vendor] succeeds exactly when no stored vendor has the
    email: the store name plays no part.  A refused registration answers
    400 and writes nothing; an accepted one appends one vendor, under the
    fresh id, with the hash (not the password of the form) as [senha],
    and answers with a token for that id. *)
Theorem register_vendor_email_decides vendor_data hashed uuid4 utcnow db :
  let r := register_vendor vendor_data hashed uuid4 utcnow db in
  (http_status (fst r) = 200 <->
   forall v, v ∈ vendors db -> Vendor.email v <> VendorCreate.email vendor_data) /\
  (http_status (fst r) <> 200 -> r = (HTTPException 400 "Email já cadastrado", db)) /\
  (http_status (fst r) = 200 ->
   exists vendor,
     r = (Ok (Token uuid4, VendorResponse.of_dict vendor),
          {| vendors := vendors db ++ [vendor]; products := products db;
             orders := orders db |}) /\
     Vendor.id vendor = uuid4 /\
     Vendor.senha vendor = hashed /\
     Vendor.email vendor = VendorCreate.email vendor_data /\
     Vendor.nome_loja vendor = VendorCreate.nome_loja vendor_data /\
     Vendor.created_at vendor = utcnow).
Proof.
  intros r. subst r. rewrite register_vendor_run.
  destruct (email_taken_or_fresh (VendorCreate.email vendor_data) (vendors db))
    as [(v & -> & Hin & Heq) | [-> Hfresh]]; simpl.
  - split; [|split].
    + split; [discriminate|]. intros H. now destruct (H v Hin).
    + reflexivity.
    + discriminate.
  - split; [|split].
    + split; [intros _; exact Hfresh | reflexivity].
    + intros H. now destruct H.
    + intros _. eexists. split; [reflexivity|]. repeat split.
Qed.

(** X2: no sequence of requests makes two vendors share an email: if the
    emails of the stored vendors are pairwise distinct, they are so after
    every request. *)
Theorem emails_stay_unique rs db :
  NoDup (map Vendor.email (vendors db)) ->
  Forall (fun db' => NoDup (map Vendor.email (vendors db'))) (trace rs db).
Proof.
  revert db. induction rs as [|r rs IH]; intros db Hdb; simpl; [constructor|].
  assert (Hstep : NoDup (map Vendor.email (vendors (exec r db)))).
  { destruct (exec_vendors r db) as [-> | (v & -> & Hfresh)]; [exact Hdb|].
    rewrite map_app. simpl. apply NoDup_app. split; [exact Hdb|]. split.
    - intros e He Hev. apply list_elem_of_singleton in Hev. subst e.
      apply list_elem_of_In, in_map_iff in He as (v' & Heq & Hin).
      apply list_elem_of_In in Hin. now apply (Hfresh v' Hin).
    - apply NoDup_singleton. }
  constructor; [exact Hstep | now apply IH].
Qed.

Lemma emails_stay_unique_witness :
  Forall (fun db' => NoDup (map Vendor.email (vendors db')))
    (trace [RegisterVendor (VendorCreate.mk "Caio" "caio@feira.br" "31" "segredo" "Feira_da_Ana")
              "$2b$segredo" "C" 6;
            RegisterVendor (VendorCreate.mk "Ana II" "ana@feira.br" "12" "outra" "Outra_banca")
              "$2b$outra" "D" 7]
       Market.db).
Proof.
  apply emails_stay_unique.
  apply (bool_decide_unpack _); vm_compute; exact I.
Defined.




Section Login.
Variable verify_password : string -> string -> bool.

Lemma login_vendor_run login_data db :
  login_vendor verify_password login_data db =
  match Collection.find_one
          (fun v => String.eqb (Vendor.email v) (VendorLogin.email login_data))
          (vendors db) with
  | None => (HTTPException 401 "Email ou senha inválidos", db)
  | Some vendor =>
      if verify_password (VendorLogin.senha login_data) (Vendor.senha vendor)
      then (Ok (Token (Vendor.id vendor), VendorResponse.of_dict vendor), db)
      else (HTTPException 401 "Email ou senha inválidos", db)
  end.
Proof.
  unfold login_vendor. erewrite bind_ok by apply db_vendors_query.
  destruct (Collection.find_one _ (vendors db)) as [v|]; [|reflexivity].
  destruct (verify_password _ _); reflexivity.
Qed.

(** X4: [login_vendor] never writes, and it has one failure: an unknown
    email and a wrong password get the same 401 with the same detail.  It
    succeeds only for a stored vendor with that email whose stored hash
    the password check accepts, and then answers with a token for that
    vendor's id. *)
Theorem login_one_failure login_data db :
  snd (login_vendor verify_password login_data db) = db /\
  (fst (login_vendor verify_password login_data db)
   = HTTPException 401 "Email ou senha inválidos" \/
   exists vendor,
     vendor ∈ vendors db /\
     Vendor.email vendor = VendorLogin.email login_data /\
     verify_password (VendorLogin.senha login_data) (Vendor.senha vendor) = true /\
     fst (login_vendor verify_password login_data db)
     = Ok (Token (Vendor.id vendor), VendorResponse.of_dict vendor)) /\
  ((forall v, v ∈ vendors db -> Vendor.email v <> VendorLogin.email login_data) ->
   fst (login_vendor verify_password login_data db)
   = HTTPException 401 "Email ou senha inválidos") /\
  ((forall v, v ∈ vendors db ->
              verify_password (VendorLogin.senha login_data) (Vendor.senha v) = false) ->
   fst (login_vendor verify_password login_data db)
   = HTTPException 401 "Email ou senha inválidos").
Proof.
  rewrite login_vendor_run.
  destruct (email_taken_or_fresh (VendorLogin.email login_data) (vendors db))
    as [(v & -> & Hin & Heq) | [-> Hfresh]].
  - destruct (verify_password _ _) eqn:Hpw; simpl.
    + split; [reflexivity|]. split; [|split].
      * right. exists v. repeat split; assumption.
      * intros H. now destruct (H v Hin).
      * intros H. rewrite (H v Hin) in Hpw. discriminate.
    + split; [reflexivity|]. split; [now left|]. split; reflexivity.
  - simpl. split; [reflexivity|]. split; [now left|]. split; reflexivity.
Qed.

End Login.


(** X6: a route behind [Depends(get_current_vendor)] runs its handler
    only for a token that carries the id of a stored vendor.  With any
    other credentials the handler is not run and the store is not
    written: no credentials answer 403, a rejected token or a token for
    an unknown id answers 401. *)
Theorem protected_route_needs_vendor {A} (h : Vendor.t -> handler A) credentials db :
  (forall v, v ∈ vendors db -> credentials <> Token (Vendor.id v)) ->
  exists d,
    Depends credentials h db
    = (HTTPException (match credentials with NoCredentials => 403 | _ => 401 end) d, db).
Proof.
  intros Hnone. unfold Depends.
  destruct credentials as [| |vendor_id].
  - eexists. reflexivity.
  - eexists. reflexivity.
  - eexists. erewrite bind_raise; [reflexivity|].
    unfold get_current_vendor. erewrite bind_ok by apply db_vendors_query.
    destruct (Collection.find_one _ (vendors db)) as [v|] eqn:E; [|reflexivity].
    apply CollectionFacts.find_one_Some in E as [Hin Heq]. apply String.eqb_eq in Heq.
    destruct (Hnone v Hin). now rewrite Heq.
Qed.

Lemma protected_route_needs_vendor_witness :
  exists d,
    Depends (Token "Z") (delete_product "P") Market.db = (HTTPException 401 d, Market.db).
Proof.
  apply (protected_route_needs_vendor (delete_product "P") (Token "Z") Market.db).
  intros v Hv.
  apply elem_of_cons in Hv as [-> | Hv]; [discriminate|].
  apply elem_of_cons in Hv as [-> | Hv]; [discriminate|]. inversion Hv.
Defined.

(** ** The catalogue *)


Lemma products_page credentials vendor skip limit db :
  get_current_vendor credentials db = (Ok vendor, db) ->
  0 <= default 0 skip -> 1 <= default 20 limit <= 100 ->
  GET_products_my credentials skip limit db =
  (Ok {| page_total :=
           Py.len (List.filter (product_by_vendor (Vendor.id vendor)) (products db));
         page_items :=
           take (Z.to_nat (default 20 limit))
             (drop (Z.to_nat (default 0 skip))
                (List.filter (product_by_vendor (Vendor.id vendor)) (products db))) |}, db).
Proof.
  intros Hauth Hs Hl. unfold GET_products_my.
  rewrite (paginated_accepts _ _ _ _ _ _ Hauth Hs Hl). unfold get_my_products.
  erewrite bind_ok by apply db_products_query.
  erewrite bind_ok by apply db_products_query.
  rewrite take_to_list. reflexivity.
Qed.

Lemma orders_page credentials vendor skip limit db :
  get_current_vendor credentials db = (Ok vendor, db) ->
  0 <= default 0 skip -> 1 <= default 20 limit <= 100 ->
  GET_orders_my credentials skip limit db =
  (Ok {| page_total :=
           Py.len (List.filter (order_by_vendor (Vendor.id vendor)) (orders db));
         page_items :=
           map Order.of_dict
             (take (Z.to_nat (default 20 limit))
                (drop (Z.to_nat (default 0 skip))
                   (List.filter (order_by_vendor (Vendor.id vendor)) (orders db)))) |}, db).
Proof.
  intros Hauth Hs Hl. unfold GET_orders_my.
  rewrite (paginated_accepts _ _ _ _ _ _ Hauth Hs Hl). unfold get_my_orders.
  erewrite bind_ok by apply db_orders_query.
  erewrite bind_ok by apply db_orders_query.
  rewrite take_to_list. reflexivity.
Qed.

Lemma page_bounds_dec skip limit :
  (0 <= default 0 skip /\ 1 <= default 20 limit <= 100) \/
  ~ (0 <= default 0 skip /\ 1 <= default 20 limit <= 100).
Proof. lia. Qed.

Lemma filter_snoc {A} (q : A -> bool) (l : list A) (x : A) :
  List.filter q (l ++ [x]) = List.filter q l ++ (if q x then [x] else []).
Proof. rewrite List.filter_app. simpl. now destruct (q x). Qed.



Module CollectionMore.
Section Facts.
Context {A : Type}.
Implicit Types (q : A -> bool) (c : list A).

Lemma find_one_hit q c1 d c2 :
  q d = true -> (forall x, x ∈ c1 -> q x = false) ->
  Collection.find_one q (c1 ++ d :: c2) = Some d.
Proof.
  intros Hd. unfold Collection.find_one. induction c1 as [|x c1 IH]; simpl; intros Hc1.
  - now rewrite Hd.
  - rewrite (Hc1 x) by constructor. apply IH. intros y Hy. apply Hc1. now constructor.
Qed.

Lemma delete_one_hit q c1 d c2 :
  q d = true -> (forall x, x ∈ c1 -> q x = false) ->
  Collection.delete_one q (c1 ++ d :: c2) = (1, c1 ++ c2).
Proof.
  intros Hd. induction c1 as [|x c1 IH]; simpl; intros Hc1.
  - now rewrite Hd.
  - rewrite (Hc1 x) by constructor.
    rewrite IH; [reflexivity|]. intros y Hy. apply Hc1. now constructor.
Qed.

Lemma find_one_exists q c d :
  d ∈ c -> q d = true -> exists d', Collection.find_one q c = Some d'.
Proof.
  intros Hin Hq. destruct (Collection.find_one q c) as [d'|] eqn:E; [now exists d'|].
  rewrite (proj1 (CollectionFacts.find_one_None q c) E d Hin) in Hq. discriminate.
Qed.

(** Deleting or updating under a filter leaves every document outside a
    disjoint filter where it was. *)
Lemma delete_one_other q q' c :
  (forall d, q d = true -> q' d = false) ->
  List.filter q' (snd (Collection.delete_one q c)) = List.filter q' c.
Proof.
  intros Hdisj. induction c as [|x c IH]; simpl; [reflexivity|].
  destruct (q x) eqn:E; simpl.
  - now rewrite (Hdisj x E).
  - now rewrite IH.
Qed.

Lemma update_one_other q q' (u : A -> A) c :
  (forall d, q d = true -> q' d = false /\ q' (u d) = false) ->
  List.filter q' (snd (Collection.update_one q u c)) = List.filter q' c.
Proof.
  intros Hdisj. induction c as [|x c IH]; simpl; [reflexivity|].
  destruct (q x) eqn:E; simpl.
  - destruct (Hdisj x E) as [-> ->]. reflexivity.
  - now rewrite IH.
Qed.
End Facts.
End CollectionMore.

Lemma set_product_id product_data p :
  Product.id (set_product product_data p) = Product.id p.
Proof. reflexivity. Qed.

(** X8: when the product that the store finds under the id belongs to the
    caller, [update_product] succeeds and answers with the updated
    product: that one document, where it stood, now carries the form's
    name, description, price, quantity, category and image, and keeps its
    id, owner and creation time; nothing else in the store changes. *)
Theorem update_product_replaces_fields product_id product_data vendor db p :
  Collection.find_one (product_by_id product_id) (products db) = Some p ->
  Product.vendor_id p = Vendor.id vendor ->
  exists c1 c2 updated,
    products db = c1 ++ p :: c2 /\
    update_product product_id product_data vendor db =
    (Ok updated, {| vendors := vendors db; products := c1 ++ updated :: c2;
                    orders := orders db |}) /\
    Product.id updated = Product.id p /\
    Product.vendor_id updated = Product.vendor_id p /\
    Product.created_at updated = Product.created_at p /\
    Product.nome updated = ProductCreate.nome product_data /\
    Product.descricao updated = ProductCreate.descricao product_data /\
    Product.preco updated = ProductCreate.preco product_data /\
    Product.quantidade updated = ProductCreate.quantidade product_data /\
    Product.categoria updated = ProductCreate.categoria product_data /\
    Product.imagem updated = ProductCreate.imagem product_data.
Proof.
  intros Hfind Hown.
  destruct (CollectionFacts.find_one_split _ _ _ Hfind) as (c1 & c2 & Hsplit & Hp & Hc1).
  exists c1, c2, (set_product product_data p). split; [exact Hsplit|].
  split; [|repeat split].
  rewrite update_product_run.
  destruct (CollectionMore.find_one_exists
              (product_by_id_vendor product_id (Vendor.id vendor)) (products db) p)
    as [p' ->].
  - rewrite Hsplit. apply elem_of_app. right. constructor.
  - unfold product_by_id_vendor, product_by_vendor. rewrite Hp, Hown. apply String.eqb_refl.
  - cbv zeta. simpl products. rewrite Hsplit.
    rewrite (CollectionFacts.update_one_hit _ _ _ _ _ Hp Hc1). simpl snd.
    rewrite CollectionMore.find_one_hit; [reflexivity| |exact Hc1].
    unfold product_by_id in *. now rewrite set_product_id.
Qed.

Lemma update_product_replaces_fields_witness :
  exists updated db',
    update_product "P" (ProductCreate.mk "Tomate cereja" "Bandeja" 9.5%float 40 "Verduras" None)
      Market.ana Market.db = (Ok updated, db') /\
    Product.quantidade updated = 40 /\
    Product.vendor_id updated = "A"%string /\
    Product.created_at updated = 3.
Proof.
  destruct (update_product_replaces_fields "P"
              (ProductCreate.mk "Tomate cereja" "Bandeja" 9.5%float 40 "Verduras" None)
              Market.ana Market.db Market.tomate eq_refl eq_refl)
    as (c1 & c2 & updated & _ & Hrun & _ & Hv & Ht & _ & _ & _ & Hq & _).
  eexists _, _. split; [exact Hrun|]. split; [exact Hq|]. split; [exact Hv | exact Ht].
Defined.

(** X9: [delete_product] succeeds exactly when the caller owns a product
    with the id; it then removes that one document (the first such) and
    nothing else, and otherwise answers 404 and removes nothing.  Either
    way the products of every other vendor, the vendors and the orders
    are as before. *)
Theorem delete_product_removes_one product_id vendor db :
  let r := delete_product product_id vendor db in
  let owned p := Product.id p = product_id /\ Product.vendor_id p = Vendor.id vendor in
  (http_status (fst r) = 200 <-> exists p, p ∈ products db /\ owned p) /\
  (http_status (fst r) = 200 ->
   exists c1 p c2,
     products db = c1 ++ p :: c2 /\ owned p /\ (forall x, x ∈ c1 -> ~ owned x) /\
     products (snd r) = c1 ++ c2) /\
  (http_status (fst r) <> 200 -> r = (HTTPException 404 "Produto não encontrado", db)) /\
  (forall other, other <> Vendor.id vendor ->
     List.filter (product_by_vendor other) (products (snd r))
     = List.filter (product_by_vendor other) (products db)) /\
  vendors (snd r) = vendors db /\ orders (snd r) = orders db.
Proof.
  intros r owned. subst r. rewrite delete_product_run. cbv zeta.
  assert (Hother : forall other, other <> Vendor.id vendor ->
            List.filter (product_by_vendor other)
              (snd (Collection.delete_one
                      (product_by_id_vendor product_id (Vendor.id vendor)) (products db)))
            = List.filter (product_by_vendor other) (products db)).
  { intros other Hne. apply CollectionMore.delete_one_other. intros d Hd.
    apply product_by_id_vendor_true in Hd as [_ Hd]. unfold product_by_vendor.
    destruct (String.eqb_spec (Product.vendor_id d) other); [congruence | reflexivity]. }
  destruct (Collection.find_one (product_by_id_vendor product_id (Vendor.id vendor))
              (products db)) as [p|] eqn:Hfind.
  - destruct (CollectionFacts.find_one_split _ _ _ Hfind) as (c1 & c2 & Hsplit & Hp & Hc1).
    assert (Hc1' : forall x, x ∈ c1 -> ~ owned x).
    { intros x Hx Hox. apply product_by_id_vendor_true in Hox.
      rewrite (Hc1 x Hx) in Hox. discriminate. }
    pose proof (proj1 (product_by_id_vendor_true _ _ _) Hp) as Hop.
    assert (E : Collection.delete_one (product_by_id_vendor product_id (Vendor.id vendor))
                  (products db) = (1, c1 ++ c2)).
    { rewrite Hsplit. now apply CollectionMore.delete_one_hit. }
    rewrite E in Hother |- *. simpl in Hother |- *.
    split; [|split; [|split; [|split]]].
    + split; [|reflexivity]. intros _. exists p. split; [|exact Hop].
      rewrite Hsplit. apply elem_of_app. right. constructor.
    + intros _. exists c1, p, c2.
      split; [exact Hsplit|]. split; [exact Hop|]. split; [exact Hc1' | reflexivity].
    + intros H. now destruct H.
    + exact Hother.
    + split; reflexivity.
  - rewrite (CollectionFacts.delete_one_miss _ _ Hfind). simpl.
    split; [|split; [|split; [|split]]].
    + split; [discriminate|]. intros (p & Hin & Hop).
      apply product_by_id_vendor_true in Hop.
      rewrite (proj1 (CollectionFacts.find_one_None _ _) Hfind p Hin) in Hop. discriminate.
    + discriminate.
    + intros _. now rewrite db_eta.
    + reflexivity.
    + split; reflexivity.
Qed.

Lemma delete_product_removes_one_example :
  http_status (fst (delete_product "P" Market.ana Market.db)) = 200 /\
  products (snd (delete_product "P" Market.ana Market.db)) = [Market.ovos].
Proof. split; reflexivity. Qed.

(** ** Listings *)

Lemma page_members {A} (q : A -> bool) (c : list A) (n m : nat) (x : A) :
  x ∈ take n (drop m (List.filter q c)) -> x ∈ c /\ q x = true.
Proof.
  intros Hx. apply subseteq_take, subseteq_drop in Hx.
  apply list_elem_of_In, filter_In in Hx as [Hin Hq].
  split; [now apply list_elem_of_In | exact Hq].
Qed.

(** X10: a listing shows the caller's documents and no one else's.  For
    an authenticated vendor, every product that [GET /products/my]
    returns is stored and owned by that vendor, every order that
    [GET /orders/my] returns is the reading of a stored order of that
    vendor, a page has at most 100 entries, the count beside it is that
    of all the vendor's documents whatever the page, and the store is
    not written. *)
Theorem listing_shows_own_only credentials vendor skip limit db :
  get_current_vendor credentials db = (Ok vendor, db) ->
  (forall page db',
      GET_products_my credentials skip limit db = (Ok page, db') ->
      db' = db /\
      (forall p, p ∈ page_items page ->
                 p ∈ products db /\ Product.vendor_id p = Vendor.id vendor) /\
      (length (page_items page) <= 100)%nat /\
      page_total page
      = Py.len (List.filter (product_by_vendor (Vendor.id vendor)) (products db))) /\
  (forall page db',
      GET_orders_my credentials skip limit db = (Ok page, db') ->
      db' = db /\
      (forall o, o ∈ page_items page ->
                 exists doc, doc ∈ orders db /\ o = Order.of_dict doc /\
                             OrderDoc.vendor_id doc = Vendor.id vendor) /\
      (length (page_items page) <= 100)%nat /\
      page_total page
      = Py.len (List.filter (order_by_vendor (Vendor.id vendor)) (orders db))).
Proof.
  intros Hauth. split; intros page db' Hrun.
  - destruct (page_bounds_dec skip limit) as [[Hs Hl] | Hbad].
    + rewrite (products_page _ _ _ _ _ Hauth Hs Hl) in Hrun. inversion Hrun; subst; simpl.
      split; [reflexivity|]. split; [|split; [|reflexivity]].
      * intros p Hp. apply page_members in Hp as [Hin Hq]. split; [exact Hin|].
        now apply String.eqb_eq.
      * rewrite length_take. lia.
    + destruct (paginated_rejects get_my_products _ _ _ _ _ Hauth Hbad) as [d Hd].
      unfold GET_products_my in Hrun. rewrite Hd in Hrun. discriminate.
  - destruct (page_bounds_dec skip limit) as [[Hs Hl] | Hbad].
    + rewrite (orders_page _ _ _ _ _ Hauth Hs Hl) in Hrun. inversion Hrun; subst; simpl.
      split; [reflexivity|]. split; [|split; [|reflexivity]].
      * intros o Ho. apply list_elem_of_In, in_map_iff in Ho as (doc & <- & Hdoc).
        apply list_elem_of_In, page_members in Hdoc as [Hin Hq].
        exists doc. split; [exact Hin|]. split; [reflexivity|]. now apply String.eqb_eq.
      * rewrite length_map, length_take. lia.
    + destruct (paginated_rejects get_my_orders _ _ _ _ _ Hauth Hbad) as [d Hd].
      unfold GET_orders_my in Hrun. rewrite Hd in Hrun. discriminate.
Qed.

Lemma listing_shows_own_only_witness :
  exists page,
    GET_products_my (Token "A") None None Market.db = (Ok page, Market.db) /\
    forall p, p ∈ page_items page -> Product.vendor_id p = "A"%string.
Proof.
  eexists. split; [vm_compute; reflexivity|]. intros p Hp.
  destruct (listing_shows_own_only (Token "A") Market.ana None None Market.db eq_refl)
    as [Hproducts _].
  edestruct Hproducts as (_ & Hmine & _); [vm_compute; reflexivity|].
  now apply Hmine.
Defined.

(** X11: offset pagination cuts a listing without gaps or overlaps: for
    an authenticated vendor, on the products listing and on the orders
    listing, the page of [a] entries at [skip] followed by the page of
    [b] entries at [skip + a] is the page of [a + b] entries at [skip],
    with the same count on all three, as long as the three limits are
    within [1,100]. *)
Theorem pages_concatenate credentials vendor skip a b db :
  get_current_vendor credentials db = (Ok vendor, db) ->
  0 <= skip -> 1 <= a -> 1 <= b -> a + b <= 100 ->
  (exists first second both,
     GET_products_my credentials (Some skip) (Some a) db = (Ok first, db) /\
     GET_products_my credentials (Some (skip + a)) (Some b) db = (Ok second, db) /\
     GET_products_my credentials (Some skip) (Some (a + b)) db = (Ok both, db) /\
     page_items first ++ page_items second = page_items both /\
     page_total first = page_total both /\ page_total second = page_total both) /\
  (exists first second both,
     GET_orders_my credentials (Some skip) (Some a) db = (Ok first, db) /\
     GET_orders_my credentials (Some (skip + a)) (Some b) db = (Ok second, db) /\
     GET_orders_my credentials (Some skip) (Some (a + b)) db = (Ok both, db) /\
     page_items first ++ page_items second = page_items both /\
     page_total first = page_total both /\ page_total second = page_total both).
Proof.
  intros Hauth Hs Ha Hb Hab.
  assert (Hcut : forall A (l : list A),
             take (Z.to_nat a) (drop (Z.to_nat skip) l)
             ++ take (Z.to_nat b) (drop (Z.to_nat (skip + a)) l)
             = take (Z.to_nat (a + b)) (drop (Z.to_nat skip) l)).
  { intros A l. rewrite (Z2Nat.inj_add skip a) by lia. rewrite <- drop_drop.
    rewrite take_take_drop. f_equal. lia. }
  split.
  - rewrite !(products_page credentials vendor) by (simpl; (exact Hauth || lia)).
    eexists _, _, _. split; [reflexivity|]. split; [reflexivity|]. split; [reflexivity|].
    simpl. split; [apply Hcut | split; reflexivity].
  - rewrite !(orders_page credentials vendor) by (simpl; (exact Hauth || lia)).
    eexists _, _, _. split; [reflexivity|]. split; [reflexivity|]. split; [reflexivity|].
    simpl. split; [|split; reflexivity].
    rewrite <- map_app. f_equal. apply Hcut.
Qed.

Lemma pages_concatenate_witness :
  exists first second both,
    GET_products_my (Token "A") (Some 0) (Some 1) Market.db = (Ok first, Market.db) /\
    GET_products_my (Token "A") (Some 1) (Some 1) Market.db = (Ok second, Market.db) /\
    GET_products_my (Token "A") (Some 0) (Some 2) Market.db = (Ok both, Market.db) /\
    page_items first ++ page_items second = page_items both.
Proof.
  destruct (pages_concatenate (Token "A") Market.ana 0 1 1 Market.db eq_refl)
    as [(first & second & both & H1 & H2 & H3 & Happ & _) _]; try lia.
  exists first, second, both. repeat split; assumption.
Defined.

(** ** Sorting in reverse *)

Module SortFacts.
Section Sorting.
Context {A : Type} (key : A -> Z).

Lemma insert_reverse_perm x l : insert_reverse key x l ≡ₚ x :: l.
Proof.
  induction l as [|y l IH]; simpl; [reflexivity|].
  destruct (key y <=? key x); [reflexivity|].
  rewrite IH. apply Permutation_swap.
Qed.

Lemma sort_reverse_perm l : sort_reverse key l ≡ₚ l.
Proof.
  induction l as [|x l IH]; simpl; [reflexivity|].
  rewrite insert_reverse_perm. now rewrite IH.
Qed.

Lemma insert_reverse_sorted x l :
  StronglySorted (fun a b => key b <= key a) l ->
  StronglySorted (fun a b => key b <= key a) (insert_reverse key x l).
Proof.
  induction 1 as [|y l Hl IH Hy]; simpl.
  - repeat constructor.
  - destruct (Z.leb_spec (key y) (key x)) as [Hle|Hlt].
    + constructor; [now constructor|]. constructor; [exact Hle|].
      eapply Forall_impl; [exact Hy|]. simpl. intros z Hz. lia.
    + constructor; [exact IH|].
      rewrite insert_reverse_perm. constructor; [lia | exact Hy].
Qed.

Lemma sort_reverse_sorted l :
  StronglySorted (fun a b => key b <= key a) (sort_reverse key l).
Proof.
  induction l as [|x l IH]; simpl; [constructor|]. now apply insert_reverse_sorted.
Qed.

(** Stability: the entries under one key keep the order they came in. *)
Lemma insert_reverse_stable k x l :
  List.filter (fun a => key a =? k) (insert_reverse key x l)
  = List.filter (fun a => key a =? k) (x :: l).
Proof.
  induction l as [|y l IH]; [reflexivity|].
  simpl insert_reverse. destruct (Z.leb_spec (key y) (key x)) as [Hle|Hlt]; [reflexivity|].
  simpl in IH |- *. rewrite IH.
  destruct (Z.eqb_spec (key x) k) as [Ex|Ex]; [|reflexivity].
  destruct (Z.eqb_spec (key y) k) as [Ey|Ey]; [lia | reflexivity].
Qed.

Lemma sort_reverse_stable k l :
  List.filter (fun a => key a =? k) (sort_reverse key l)
  = List.filter (fun a => key a =? k) l.
Proof.
  induction l as [|x l IH]; [reflexivity|].
  simpl sort_reverse. rewrite insert_reverse_stable. simpl. now rewrite IH.
Qed.

(** What is cut off after the first [n] is no larger than what is kept. *)
Lemma sort_reverse_take_drop n l x y :
  x ∈ take n (sort_reverse key l) -> y ∈ drop n (sort_reverse key l) -> key y <= key x.
Proof.
  intros Hx Hy. pose proof (sort_reverse_sorted l) as Hs.
  rewrite <- (take_drop n (sort_reverse key l)) in Hs.
  exact (StronglySorted_app_1_elem_of _ _ _ _ _ Hs Hx Hy).
Qed.

Lemma sorted_take n l :
  StronglySorted (fun a b => key b <= key a) l ->
  StronglySorted (fun a b => key b <= key a) (take n l).
Proof.
  intros Hs. rewrite <- (take_drop n l) in Hs.
  now apply StronglySorted_app_1_l in Hs.
Qed.
End Sorting.
End SortFacts.

(** ** The public store pages *)

Lemma find_all (c : list Vendor.t) : Collection.find (fun _ => true) c = c.
Proof. unfold Collection.find. induction c as [|x c IH]; simpl; [reflexivity | now rewrite IH]. Qed.

Lemma product_in_stock_of_true vendor_id p :
  product_in_stock_of vendor_id p = true <->
  Product.vendor_id p = vendor_id /\ 0 < Product.quantidade p.
Proof.
  unfold product_in_stock_of, product_by_vendor.
  now rewrite andb_true_iff, String.eqb_eq, Z.ltb_lt.
Qed.

Lemma store_entries_run vs db :
  for_append vs (fun vendor =>
      (let* product_count := db_products (query (Collection.count_documents
                               (product_in_stock_of (Vendor.id vendor)))) in
       ret {| StoreInfo.id := Vendor.id vendor;
              StoreInfo.nome := Vendor.nome vendor;
              StoreInfo.nome_loja := Vendor.nome_loja vendor;
              StoreInfo.telefone := Vendor.telefone vendor;
              StoreInfo.product_count := product_count;
              StoreInfo.created_at := Vendor.created_at vendor |})%handler) db
  = (Ok (map (store_info (products db)) vs), db).
Proof.
  induction vs as [|v vs IH]; [reflexivity|].
  simpl for_append. unfold bind at 1.
  erewrite bind_ok by apply db_products_query.
  unfold ret at 1. unfold bind at 1. rewrite IH. reflexivity.
Qed.

Lemma get_all_stores_run db :
  get_all_stores db =
  (Ok (sort_reverse StoreInfo.created_at
         (map (store_info (products db)) (take 1000 (vendors db)))), db).
Proof.
  unfold get_all_stores, try_except.
  erewrite bind_ok by apply db_vendors_query.
  erewrite bind_ok by apply store_entries_run.
  rewrite find_all. reflexivity.
Qed.

(** X12: [GET /stores/all] always answers, without writing: one entry for
    each of the first thousand vendors, newest first, vendors created at
    the same instant in the order of their registration; the product
    count of an entry is the number of that vendor's products with a
    quantity above zero. *)
Theorem get_all_stores_newest_first db :
  let entries := map (store_info (products db)) (take 1000 (vendors db)) in
  exists stores,
    get_all_stores db = (Ok stores, db) /\
    stores ≡ₚ entries /\
    StronglySorted (fun a b => StoreInfo.created_at b <= StoreInfo.created_at a) stores /\
    (forall t, List.filter (fun s => StoreInfo.created_at s =? t) stores
               = List.filter (fun s => StoreInfo.created_at s =? t) entries) /\
    (forall s, s ∈ stores ->
       exists v, v ∈ vendors db /\ StoreInfo.id s = Vendor.id v /\
                 StoreInfo.nome_loja s = Vendor.nome_loja v /\
                 StoreInfo.product_count s =
                 Z.of_nat (length (List.filter
                                     (fun p => bool_decide (Product.vendor_id p = Vendor.id v
                                                            /\ 0 < Product.quantidade p))
                                     (products db)))).
Proof.
  intros entries. eexists. split; [apply get_all_stores_run|]. fold entries.
  split; [apply SortFacts.sort_reverse_perm|].
  split; [apply SortFacts.sort_reverse_sorted|].
  split; [intros t; apply SortFacts.sort_reverse_stable|].
  intros s Hs. rewrite SortFacts.sort_reverse_perm in Hs.
  apply list_elem_of_In, in_map_iff in Hs as (v & <- & Hv).
  apply list_elem_of_In, subseteq_take in Hv.
  exists v. split; [exact Hv|]. split; [reflexivity|]. split; [reflexivity|].
  simpl. do 2 f_equal. apply filter_ext. intros p.
  destruct (String.eqb_spec (Product.vendor_id p) (Vendor.id v)) as [E|E];
    destruct (Z.ltb_spec 0 (Product.quantidade p)) as [Hq|Hq]; simpl;
    [rewrite bool_decide_eq_true_2 | rewrite bool_decide_eq_false_2 ..];
    try reflexivity; try tauto; lia.
Qed.

Lemma get_store_run nome_loja db :
  get_store nome_loja db =
  match Collection.find_one (vendor_by_nome_loja nome_loja) (vendors db) with
  | None => (HTTPException 404 "Loja não encontrada", db)
  | Some vendor =>
      (Ok {| store_vendor := VendorResponse.of_dict vendor;
             store_products :=
               take 1000 (List.filter (product_in_stock_of (Vendor.id vendor)) (products db)) |},
       db)
  end.
Proof.
  unfold get_store. erewrite bind_ok by apply db_vendors_query.
  destruct (Collection.find_one _ (vendors db)); [|reflexivity].
  erewrite bind_ok by apply db_products_query. reflexivity.
Qed.

Lemma get_store_categories_run nome_loja db :
  get_store_categories nome_loja db =
  match Collection.find_one (vendor_by_nome_loja nome_loja) (vendors db) with
  | None => (HTTPException 404 "Loja não encontrada", db)
  | Some vendor =>
      (Ok (distinct Product.categoria (product_by_vendor (Vendor.id vendor)) (products db)), db)
  end.
Proof.
  unfold get_store_categories. erewrite bind_ok by apply db_vendors_query.
  destruct (Collection.find_one _ (vendors db)); [|reflexivity].
  apply db_products_query.
Qed.

Lemma store_name_taken_or_free nome_loja c :
  (exists v, Collection.find_one (vendor_by_nome_loja nome_loja) c = Some v /\
             v ∈ c /\ Vendor.nome_loja v = nome_loja) \/
  (Collection.find_one (vendor_by_nome_loja nome_loja) c = None /\
   forall v, v ∈ c -> Vendor.nome_loja v <> nome_loja).
Proof.
  destruct (Collection.find_one _ c) as [v|] eqn:E.
  - left. exists v. split; [reflexivity|].
    apply CollectionFacts.find_one_Some in E as [Hin Heq]. split; [exact Hin|].
    now apply String.eqb_eq.
  - right. split; [reflexivity|]. intros v Hv Heq.
    apply CollectionFacts.find_one_None with (d := v) in E; [|exact Hv].
    unfold vendor_by_nome_loja in E. rewrite Heq, String.eqb_refl in E. discriminate.
Qed.

(** X13: [GET /loja/{nome_loja}] never shows a product that is out of
    stock or that belongs to another vendor.  It answers 404 exactly when
    no vendor has the store name, and never writes; otherwise it shows a
    stored vendor with that name, without the password hash, and at most
    a thousand products, each stored, owned by that vendor and with a
    quantity above zero; and when the vendor has at most a thousand such
    products it shows all of them. *)
Theorem get_store_in_stock_only nome_loja db :
  let r := get_store nome_loja db in
  snd r = db /\
  (http_status (fst r) = 404 <->
   forall v, v ∈ vendors db -> Vendor.nome_loja v <> nome_loja) /\
  (forall st, fst r = Ok st ->
     exists v,
       v ∈ vendors db /\ Vendor.nome_loja v = nome_loja /\
       store_vendor st = VendorResponse.of_dict v /\
       (forall p, p ∈ store_products st ->
          p ∈ products db /\ Product.vendor_id p = Vendor.id v /\ 0 < Product.quantidade p) /\
       (length (store_products st) <= 1000)%nat /\
       ((length (List.filter (product_in_stock_of (Vendor.id v)) (products db)) <= 1000)%nat ->
        forall p, p ∈ products db -> Product.vendor_id p = Vendor.id v ->
                  0 < Product.quantidade p -> p ∈ store_products st)).
Proof.
  intros r. subst r. rewrite get_store_run.
  destruct (store_name_taken_or_free nome_loja (vendors db))
    as [(v & -> & Hin & Hname) | [-> Hfree]]; simpl.
  - split; [reflexivity|]. split.
    + split; [discriminate|]. intros H. now destruct (H v Hin).
    + intros st [= <-]. exists v. simpl.
      split; [exact Hin|]. split; [exact Hname|]. split; [reflexivity|].
      split; [|split].
      * intros p Hp. apply subseteq_take in Hp.
        apply list_elem_of_In, filter_In in Hp as [Hp Hq].
        apply product_in_stock_of_true in Hq as [Hv Hq].
        split; [now apply list_elem_of_In|]. split; assumption.
      * rewrite length_take. lia.
      * intros Hlen p Hp Hv Hq. rewrite take_ge by exact Hlen.
        apply list_elem_of_In, filter_In. split; [now apply list_elem_of_In|].
        now apply product_in_stock_of_true.
  - split; [reflexivity|]. split.
    + split; [intros _; exact Hfree | reflexivity].
    + discriminate.
Qed.

(** X14: [GET /categorias/{nome_loja}] answers 404 exactly when no
    vendor has the store name, and never writes; otherwise it lists,
    each once, the categories of the products of a stored vendor with
    that name, those of products that are out of stock included. *)
Theorem get_store_categories_all_products nome_loja db :
  let r := get_store_categories nome_loja db in
  snd r = db /\
  (http_status (fst r) = 404 <->
   forall v, v ∈ vendors db -> Vendor.nome_loja v <> nome_loja) /\
  (forall categorias, fst r = Ok categorias ->
     NoDup categorias /\
     exists v,
       v ∈ vendors db /\ Vendor.nome_loja v = nome_loja /\
       forall c, c ∈ categorias <->
                 exists p, p ∈ products db /\ Product.vendor_id p = Vendor.id v /\
                           Product.categoria p = c).
Proof.
  intros r. subst r. rewrite get_store_categories_run.
  destruct (store_name_taken_or_free nome_loja (vendors db))
    as [(v & -> & Hin & Hname) | [-> Hfree]]; simpl.
  - split; [reflexivity|]. split.
    + split; [discriminate|]. intros H. now destruct (H v Hin).
    + intros cats [= <-]. unfold distinct. split; [apply NoDup_remove_dups|].
      exists v. split; [exact Hin|]. split; [exact Hname|].
      intros c. rewrite elem_of_remove_dups, list_elem_of_In, in_map_iff. split.
      * intros (p & Hc & Hp). apply filter_In in Hp as [Hp Hv].
        exists p. split; [now apply list_elem_of_In|]. split; [|exact Hc].
        now apply String.eqb_eq.
      * intros (p & Hp & Hv & Hc). exists p. split; [exact Hc|].
        apply filter_In. split; [now apply list_elem_of_In|].
        unfold product_by_vendor. rewrite Hv. apply String.eqb_refl.
  - split; [reflexivity|]. split.
    + split; [intros _; exact Hfree | reflexivity].
    + discriminate.
Qed.

Lemma find_one_app_l {A} (q : A -> bool) (c l : list A) d :
  Collection.find_one q c = Some d -> Collection.find_one q (c ++ l) = Some d.
Proof.
  unfold Collection.find_one. induction c as [|x c IH]; simpl; [discriminate|].
  destruct (q x); [trivial | exact IH].
Qed.

(** X15: a store name that is taken can be registered again, and the
    second store is then not reachable by its name: when the email is
    free and some vendor already has the store name, the registration
    succeeds and stores the new vendor under that name, while
    [GET /loja/{nome_loja}] and [GET /categorias/{nome_loja}] go on
    answering as they did before it. *)
Theorem taken_store_name_is_shadowed vendor_data hashed uuid4 utcnow db :
  (forall v, v ∈ vendors db -> Vendor.email v <> VendorCreate.email vendor_data) ->
  (exists v0, v0 ∈ vendors db /\ Vendor.nome_loja v0 = VendorCreate.nome_loja vendor_data) ->
  exists session db',
    register_vendor vendor_data hashed uuid4 utcnow db = (Ok session, db') /\
    (exists v, v ∈ vendors db' /\ Vendor.id v = uuid4 /\
               Vendor.nome_loja v = VendorCreate.nome_loja vendor_data) /\
    http_status (fst (get_store (VendorCreate.nome_loja vendor_data) db')) = 200 /\
    fst (get_store (VendorCreate.nome_loja vendor_data) db')
    = fst (get_store (VendorCreate.nome_loja vendor_data) db) /\
    fst (get_store_categories (VendorCreate.nome_loja vendor_data) db')
    = fst (get_store_categories (VendorCreate.nome_loja vendor_data) db).
Proof.
  intros Hfresh (v0 & Hv0 & Hname). rewrite register_vendor_run.
  destruct (email_taken_or_fresh (VendorCreate.email vendor_data) (vendors db))
    as [(v & _ & Hin & Heq) | [-> _]]; [now destruct (Hfresh v Hin)|].
  cbv zeta. eexists _, _. split; [reflexivity|]. split.
  - eexists. split; [apply elem_of_app; right; constructor|]. split; reflexivity.
  - rewrite !get_store_run, !get_store_categories_run. simpl vendors. simpl products.
    destruct (store_name_taken_or_free (VendorCreate.nome_loja vendor_data) (vendors db))
      as [(v & Hfind & _ & _) | [_ Hfree]]; [|now destruct (Hfree v0 Hv0)].
    rewrite (find_one_app_l _ _ _ _ Hfind), Hfind. repeat split.
Qed.

Lemma taken_store_name_is_shadowed_witness :
  exists session db',
    register_vendor (VendorCreate.mk "Caio" "caio@feira.br" "31" "segredo" "Feira_da_Ana")
      "$2b$segredo" "C" 6 Market.db = (Ok session, db') /\
    fst (get_store "Feira_da_Ana" db') = fst (get_store "Feira_da_Ana" Market.db).
Proof.
  destruct (taken_store_name_is_shadowed
              (VendorCreate.mk "Caio" "caio@feira.br" "31" "segredo" "Feira_da_Ana")
              "$2b$segredo" "C" 6 Market.db)
    as (session & db' & Hrun & _ & _ & Hstore & _).
  - intros v Hv.
    apply elem_of_cons in Hv as [-> | Hv]; [discriminate|].
    apply elem_of_cons in Hv as [-> | Hv]; [discriminate|]. inversion Hv.
  - exists Market.ana. split; [apply list_elem_of_here | reflexivity].
  - exists session, db'. split; [exact Hrun | exact Hstore].
Defined.

(** ** Orders: what changes and what does not *)

Lemma update_one_lookup_other {A} (q : A -> bool) (u : A -> A) (c : list A) (i : nat) d :
  c !! i = Some d -> q d = false -> snd (Collection.update_one q u c) !! i = Some d.
Proof.
  revert i. induction c as [|x c IH]; intros i Hi Hq; [discriminate|].
  simpl. destruct (q x) eqn:E; simpl.
  - destruct i as [|i]; simpl in *; [|exact Hi]. congruence.
  - destruct i as [|i]; simpl in *; [exact Hi | now apply IH].
Qed.

Lemma update_one_map {A B} (q : A -> bool) (u : A -> A) (f : A -> B) (c : list A) :
  (forall d, f (u d) = f d) ->
  map f (snd (Collection.update_one q u c)) = map f c.
Proof.
  intros Hf. induction c as [|x c IH]; simpl; [reflexivity|].
  destruct (q x); simpl; [now rewrite Hf | now rewrite IH].
Qed.

(** X16: [update_order_status] can change one thing only, the status of
    an order of the caller with the given id.  Whatever the request, the
    vendors and the products are as before, every order keeps its place,
    id, vendor, items, total and creation time, and every order that is
    not the caller's, or has another id, is exactly as before.  A body
    without the key [status] ends in an internal server error with the
    store untouched. *)
Theorem update_order_status_touches_status_only order_id status vendor db :
  let db' := snd (update_order_status order_id status vendor db) in
  vendors db' = vendors db /\
  products db' = products db /\
  map order_core (orders db') = map order_core (orders db) /\
  (forall i o, orders db !! i = Some o ->
               ~ owned_order order_id (Vendor.id vendor) o ->
               orders db' !! i = Some o) /\
  (status !! "status"%string = None ->
   update_order_status order_id status vendor db
   = (HTTPException 500 "Internal Server Error", db)).
Proof.
  intros db'. subst db'. rewrite update_order_status_run.
  destruct (status !! "status"%string) as [new_status|].
  - cbv zeta.
    assert (Hshape : forall (b : bool) (x y : response string) (d : Db),
               snd (if b then (x, d) else (y, d)) = d) by (intros []; reflexivity).
    rewrite Hshape. simpl.
    split; [reflexivity|]. split; [reflexivity|].
    split; [now apply update_one_map|]. split; [|discriminate].
    intros i o Hi Hown. apply update_one_lookup_other; [exact Hi|].
    now apply order_by_id_vendor_false.
  - simpl. repeat split. intros i o Hi _. exact Hi.
Qed.

Lemma exec_orders r db :
  map order_core (orders db) `prefix_of` map order_core (orders (exec r db)).
Proof.
  assert (Hrefl : forall db', orders db' = orders db ->
            map order_core (orders db) `prefix_of` map order_core (orders db')).
  { intros db' ->. reflexivity. }
  destruct r; simpl; try reflexivity.
  - apply Hrefl. rewrite register_vendor_run.
    destruct (Collection.find_one _ (vendors db)); reflexivity.
  - apply (Depends_preserves
             (fun db' => map order_core (orders db) `prefix_of` map order_core (orders db')));
      [reflexivity | intros; reflexivity].
  - unfold GET_products_my. rewrite paginated_reads; [reflexivity|].
    intros; apply get_my_products_reads.
  - apply (Depends_preserves
             (fun db' => map order_core (orders db) `prefix_of` map order_core (orders db')));
      [reflexivity|].
    intros v. apply Hrefl. rewrite update_product_run.
    destruct (Collection.find_one _ (products db)); [|reflexivity].
    cbv zeta. destruct (Collection.find_one _ _); reflexivity.
  - apply (Depends_preserves
             (fun db' => map order_core (orders db) `prefix_of` map order_core (orders db')));
      [reflexivity|].
    intros v. apply Hrefl. rewrite delete_product_run. cbv zeta.
    destruct (_ =? 0); reflexivity.
  - destruct (create_order_cases order_data uuid4 utcnow db) as [[_ ->] | (c & d & ->)];
      [|reflexivity].
    simpl. rewrite map_app. now apply prefix_app_r.
  - unfold GET_orders_my. rewrite paginated_reads; [reflexivity|].
    intros; apply get_my_orders_reads.
  - apply (Depends_preserves
             (fun db' => map order_core (orders db) `prefix_of` map order_core (orders db')));
      [reflexivity|].
    intros v. rewrite update_order_status_run.
    destruct (status !! "status"%string); [|reflexivity]. cbv zeta.
    destruct (_ =? 0); simpl; now rewrite update_one_map.
  - apply (Depends_preserves
             (fun db' => map order_core (orders db) `prefix_of` map order_core (orders db')));
      [reflexivity|].
    intros v. now rewrite get_dashboard_run.
Qed.

(** X17: the records of the marketplace are append-only.  After any
    sequence of requests the vendors stored at the start are still
    there, unchanged and in the same places, and so are the orders with
    their ids, vendors, items, totals and creation times: no request
    deletes, reorders or reprices an order, or alters a vendor. *)
Theorem history_is_append_only rs db :
  Forall (fun db' =>
            vendors db `prefix_of` vendors db' /\
            map order_core (orders db) `prefix_of` map order_core (orders db'))
         (trace rs db).
Proof.
  assert (Hgen : forall rs db0 db1,
            vendors db0 `prefix_of` vendors db1 ->
            map order_core (orders db0) `prefix_of` map order_core (orders db1) ->
            Forall (fun db' =>
                      vendors db0 `prefix_of` vendors db' /\
                      map order_core (orders db0) `prefix_of` map order_core (orders db'))
                   (trace rs db1)).
  { clear rs db. induction rs as [|r rs IH]; intros db0 db1 Hv Ho; simpl; [constructor|].
    assert (Hv' : vendors db0 `prefix_of` vendors (exec r db1)).
    { etransitivity; [exact Hv|].
      destruct (exec_vendors r db1) as [-> | (v & -> & _)];
        [reflexivity | now apply prefix_app_r]. }
    assert (Ho' : map order_core (orders db0) `prefix_of` map order_core (orders (exec r db1))).
    { etransitivity; [exact Ho | apply exec_orders]. }
    constructor; [now split | now apply IH]. }
  now apply Hgen.
Qed.

Lemma check_item_unknown_detail item db :
  named_product (products db) item = None ->
  check_item item db
  = (HTTPException 404 ("Produto " +:+ Item.nome item +:+ " não encontrado"), db).
Proof.
  intros H. unfold check_item.
  erewrite bind_ok by apply db_products_query.
  fold (named_product (products db) item). rewrite H. reflexivity.
Qed.

Lemma check_item_insufficient_detail item db :
  insufficient (products db) item ->
  check_item item db
  = (HTTPException 400 ("Estoque insuficiente para o produto " +:+ Item.nome item), db).
Proof.
  intros (p & Hp & Hlt). unfold check_item.
  erewrite bind_ok by apply db_products_query.
  fold (named_product (products db) item). rewrite Hp.
  apply Z.ltb_lt in Hlt. rewrite Hlt. reflexivity.
Qed.

Lemma check_loop_app before item after db r :
  Forall (sufficient (products db)) before ->
  check_item item db = (HTTPException (fst r) (snd r), db) ->
  for_each (before ++ item :: after) check_item db = (HTTPException (fst r) (snd r), db).
Proof.
  intros Hbefore Hitem. induction Hbefore as [|x before Hx _ IH]; simpl app.
  - rewrite for_each_cons. now erewrite bind_raise by exact Hitem.
  - rewrite for_each_cons. erewrite bind_ok by (apply check_item_sufficient, Hx). exact IH.
Qed.

(** X18: the error of [create_order] is that of the first line that
    fails the check, and names it.  When every line before a given one
    names an existing product with enough stock, then: if that line's
    product is missing, the answer is 404 with the line's name in the
    detail, and if it is short of stock, the answer is 400 with the
    line's name in the detail; whatever follows the line is not looked
    at, and the store is untouched. *)
Theorem create_order_first_offender order_data uuid4 utcnow db before item after :
  OrderCreate.items order_data = before ++ item :: after ->
  Forall (sufficient (products db)) before ->
  (named_product (products db) item = None ->
   create_order order_data uuid4 utcnow db
   = (HTTPException 404 ("Produto " +:+ Item.nome item +:+ " não encontrado"), db)) /\
  (insufficient (products db) item ->
   create_order order_data uuid4 utcnow db
   = (HTTPException 400 ("Estoque insuficiente para o produto " +:+ Item.nome item), db)).
Proof.
  intros Hitems Hbefore. split; intros Hitem; unfold create_order; rewrite Hitems.
  - erewrite bind_raise; [reflexivity|].
    apply (check_loop_app before item after db
             (404, "Produto " +:+ Item.nome item +:+ " não encontrado")); [exact Hbefore|].
    now apply check_item_unknown_detail.
  - erewrite bind_raise; [reflexivity|].
    apply (check_loop_app before item after db
             (400, "Estoque insuficiente para o produto " +:+ Item.nome item));
      [exact Hbefore|].
    now apply check_item_insufficient_detail.
Qed.

Lemma create_order_first_offender_witness :
  create_order
    (Market.order_for "A" [Market.line "Q" "Ovos" 12%float 2;
                           Market.line "P" "Tomate" 8.5%float 26;
                           Market.line "X" "Alface" 3%float 1]) "o-1" 5 Market.db
  = (HTTPException 400 "Estoque insuficiente para o produto Tomate", Market.db).
Proof.
  apply (create_order_first_offender
           (Market.order_for "A" [Market.line "Q" "Ovos" 12%float 2;
                                  Market.line "P" "Tomate" 8.5%float 26;
                                  Market.line "X" "Alface" 3%float 1]) "o-1" 5 Market.db
           [Market.line "Q" "Ovos" 12%float 2] (Market.line "P" "Tomate" 8.5%float 26)
           [Market.line "X" "Alface" 3%float 1] eq_refl).
  - apply Forall_cons_2; [|apply Forall_nil_2].
    exists Market.ovos. split; [reflexivity | simpl; lia].
  - exists Market.tomate. split; [reflexivity | simpl; lia].
Defined.

(** ** Orders: stock, listing and dashboard after a sale *)

Lemma stock_units_app c1 c2 : stock_units (c1 ++ c2) = stock_units c1 + stock_units c2.
Proof.
  unfold stock_units. induction c1 as [|p c1 IH]; simpl; [reflexivity|]. rewrite IH. lia.
Qed.

Lemma known_after_decrement c item item' :
  known c item' ->
  known (snd (Collection.update_one (product_by_id (Item.product_id item))
                (inc_quantidade (- Item.quantidade item)) c)) item'.
Proof.
  unfold known, named_product. rewrite find_one_after_inc.
  intros [p ->]. simpl. eexists. reflexivity.
Qed.

Lemma decremented_units items c :
  Forall (known c) items ->
  stock_units (decremented items c) = stock_units c - ordered_units items.
Proof.
  revert c. induction items as [|item items IH]; intros c Hall.
  - simpl. lia.
  - change (decremented (item :: items) c) with
      (decremented items (snd (Collection.update_one (product_by_id (Item.product_id item))
                                 (inc_quantidade (- Item.quantidade item)) c))).
    apply Forall_cons in Hall as [[p Hp] Hall].
    rewrite IH.
    + destruct (CollectionFacts.find_one_split _ _ _ Hp) as (c1 & c2 & -> & Hq & Hc1).
      rewrite (CollectionFacts.update_one_hit _ _ _ _ _ Hq Hc1). simpl snd.
      rewrite !stock_units_app. simpl. lia.
    + eapply Forall_impl; [exact Hall|]. intros item'. apply known_after_decrement.
Qed.

(** X19: an accepted order takes from the shelves exactly what it asks
    for: the quantities stored after a successful [create_order] add up
    to what they added up to before, less the sum of the quantities of
    the lines, also when lines repeat a product. *)
Theorem create_order_conserves_units order_data uuid4 utcnow db order db' :
  create_order order_data uuid4 utcnow db = (Ok order, db') ->
  stock_units (products db')
  = stock_units (products db) - ordered_units (OrderCreate.items order_data).
Proof.
  intros Hrun.
  destruct (create_order_cases order_data uuid4 utcnow db) as [[Hall E] | (c & d & E)];
    rewrite E in Hrun; [|discriminate].
  inversion Hrun; subst; simpl. apply decremented_units.
  eapply Forall_impl; [exact Hall|]. intros item (p & Hp & _). now exists p.
Qed.

Lemma create_order_conserves_units_witness :
  exists order db',
    create_order (Market.order_for "A" [Market.line "P" "Tomate" 8.5%float 20;
                                        Market.line "P" "Tomate" 8.5%float 20;
                                        Market.line "Q" "Ovos" 12%float 1])
      "o-1" 5 Market.db = (Ok order, db') /\
    stock_units (products db') = 35 - 41.
Proof.
  eexists _, _. split; [vm_compute; reflexivity|].
  rewrite (create_order_conserves_units
             (Market.order_for "A" [Market.line "P" "Tomate" 8.5%float 20;
                                    Market.line "P" "Tomate" 8.5%float 20;
                                    Market.line "Q" "Ovos" 12%float 1])
             "o-1" 5 Market.db _ _ ltac:(vm_compute; reflexivity)).
  reflexivity.
Defined.

Lemma py_sum_snoc xs x : Py.sum (xs ++ [x]) = PrimFloat.add (Py.sum xs) x.
Proof. unfold Py.sum. now rewrite fold_left_app. Qed.

(** X20: a sale shows on the seller's dashboard and on no other.  When
    [create_order] accepts an order whose [vendor_id] is the id of a
    vendor with fewer than a thousand orders, that vendor's dashboard
    counts one order more and its revenue is the previous revenue plus
    the order's total (in floating point, added last); the dashboard of
    a vendor with another id is as before. *)
Theorem sale_shows_on_dashboard order_data uuid4 utcnow db vendor :
  OrderCreate.vendor_id order_data = Vendor.id vendor ->
  Forall (sufficient (products db)) (OrderCreate.items order_data) ->
  (length (List.filter (order_by_vendor (Vendor.id vendor)) (orders db)) < 1000)%nat ->
  exists order db' before after,
    create_order order_data uuid4 utcnow db = (Ok order, db') /\
    get_dashboard vendor db = (Ok before, db) /\
    get_dashboard vendor db' = (Ok after, db') /\
    total_vendas after = PrimFloat.add (total_vendas before) (Order.total order) /\
    quantidade_pedidos after = quantidade_pedidos before + 1 /\
    (forall other, Vendor.id other <> Vendor.id vendor ->
       fst (get_dashboard other db') = fst (get_dashboard other db)).
Proof.
  intros Hvendor Hall Hlen.
  eexists _, _, _, _. split; [now apply create_order_accepted|].
  split; [apply get_dashboard_up_to_1000; lia|].
  assert (Hmine : List.filter (order_by_vendor (Vendor.id vendor))
                    (orders db ++ [stored_order order_data uuid4 utcnow])
                  = List.filter (order_by_vendor (Vendor.id vendor)) (orders db)
                    ++ [stored_order order_data uuid4 utcnow]).
  { rewrite filter_snoc. unfold order_by_vendor at 2. simpl.
    now rewrite Hvendor, String.eqb_refl. }
  split.
  - rewrite get_dashboard_up_to_1000; [reflexivity|].
    simpl orders. rewrite Hmine, length_app. simpl. lia.
  - split; [|split].
    + simpl orders. rewrite Hmine. simpl. rewrite map_app. apply py_sum_snoc.
    + simpl orders. rewrite Hmine. simpl. unfold Py.len. rewrite length_app. simpl. lia.
    + intros other Hother. rewrite !get_dashboard_run. simpl.
      assert (Hsame : List.filter (order_by_vendor (Vendor.id other))
                        (orders db ++ [stored_order order_data uuid4 utcnow])
                      = List.filter (order_by_vendor (Vendor.id other)) (orders db)).
      { rewrite filter_snoc. unfold order_by_vendor at 2. simpl.
        destruct (String.eqb_spec (OrderCreate.vendor_id order_data) (Vendor.id other));
          [congruence|]. apply app_nil_r. }
      now rewrite Hsame.
Qed.

Lemma sale_shows_on_dashboard_witness :
  exists order db' before after,
    create_order (Market.order_for "A" [Market.line "P" "Tomate" 8.5%float 2]) "o-2" 6
      Market.sold = (Ok order, db') /\
    get_dashboard Market.ana Market.sold = (Ok before, Market.sold) /\
    get_dashboard Market.ana db' = (Ok after, db') /\
    total_vendas after = PrimFloat.add (total_vendas before) (Order.total order) /\
    quantidade_pedidos after = quantidade_pedidos before + 1.
Proof.
  destruct (sale_shows_on_dashboard
              (Market.order_for "A" [Market.line "P" "Tomate" 8.5%float 2]) "o-2" 6
              Market.sold Market.ana eq_refl)
    as (order & db' & before & after & H1 & H2 & H3 & H4 & H5 & _).
  - apply Forall_cons_2; [|apply Forall_nil_2].
    eexists. split; [vm_compute; reflexivity | simpl; lia].
  - vm_compute. lia.
  - exists order, db', before, after. repeat split; assumption.
Defined.



(** ** Dashboard: the best-selling products *)

Module CounterFacts.

Lemma counted_add k k' v c :
  counted k (counter_add k' v c) = counted k c + (if String.eqb k' k then v else 0).
Proof.
  induction c as [|[k0 n] c IH]; simpl.
  - destruct (String.eqb k' k); lia.
  - destruct (String.eqb_spec k0 k') as [E|E]; simpl.
    + subst k0. destruct (String.eqb k' k); lia.
    + rewrite IH. destruct (String.eqb k0 k); lia.
Qed.

Lemma keys_add k v c :
  map fst (counter_add k v c) = if bool_decide (k ∈ map fst c) then map fst c else map fst c ++ [k].
Proof.
  induction c as [|[k0 n] c IH]; cbn [counter_add map fst].
  - rewrite bool_decide_eq_false_2; [reflexivity|]. intros H. inversion H.
  - destruct (String.eqb_spec k0 k) as [E|E]; cbn [map fst].
    + subst k0. rewrite (bool_decide_eq_true_2 (k ∈ k :: map fst c)); [reflexivity|].
      constructor.
    + rewrite IH. destruct (decide (k ∈ map fst c)) as [Hin|Hnin].
      * rewrite (bool_decide_eq_true_2 _ Hin).
        rewrite (bool_decide_eq_true_2 (k ∈ k0 :: map fst c)); [reflexivity|].
        now constructor.
      * rewrite (bool_decide_eq_false_2 _ Hnin).
        rewrite (bool_decide_eq_false_2 (k ∈ k0 :: map fst c)); [reflexivity|].
        intros H. apply elem_of_cons in H as [H|H]; [congruence | contradiction].
Qed.

Lemma keys_add_NoDup k v c : NoDup (map fst c) -> NoDup (map fst (counter_add k v c)).
Proof.
  intros Hc. rewrite keys_add. destruct (bool_decide (k ∈ map fst c)) eqn:B; [exact Hc|].
  apply bool_decide_eq_false_1 in B.
  apply NoDup_app. split; [exact Hc|]. split; [|apply NoDup_singleton].
  intros x Hx Hk. apply list_elem_of_singleton in Hk. now subst.
Qed.

Lemma keys_add_elem k v c x :
  x ∈ map fst (counter_add k v c) <-> x = k \/ x ∈ map fst c.
Proof.
  rewrite keys_add. destruct (bool_decide (k ∈ map fst c)) eqn:B.
  - apply bool_decide_eq_true_1 in B. split; [now right|]. intros [->|H]; assumption.
  - rewrite elem_of_app, list_elem_of_singleton. tauto.
Qed.

Lemma counted_entry k n c :
  NoDup (map fst c) -> (k, n) ∈ c -> counted k c = n.
Proof.
  induction c as [|[k0 n0] c IH]; simpl; intros Hc Hin; [inversion Hin|].
  apply NoDup_cons in Hc as [Hk0 Hc].
  apply elem_of_cons in Hin as [[= <- <-] | Hin].
  - rewrite String.eqb_refl.
    assert (H0 : forall c', k ∉ map fst c' -> counted k c' = 0).
    { clear. induction c' as [|[k1 n1] c' IH]; simpl; intros H; [reflexivity|].
      apply not_elem_of_cons in H as [Hne H].
      destruct (String.eqb_spec k1 k); [congruence | now apply IH]. }
    rewrite (H0 c Hk0). lia.
  - destruct (String.eqb_spec k0 k) as [E|E].
    + subst k0. destruct Hk0.
      apply list_elem_of_In, in_map_iff. exists (k, n). split; [reflexivity|].
      now apply list_elem_of_In.
    + now apply IH.
Qed.

Lemma line_units_cons nome item items :
  line_units nome (item :: items) =
  (if String.eqb (Item.nome item) nome then Item.quantidade item else 0)
  + line_units nome items.
Proof. unfold line_units. simpl. destruct (String.eqb _ nome); lia. Qed.

(** The inner loop, over the lines of one order. *)
Lemma count_lines k items c :
  counted k (fold_left (fun counter item =>
                          counter_add (Item.nome item) (Item.quantidade item) counter)
                       items c)
  = counted k c + line_units k items.
Proof.
  revert c. induction items as [|item items IH]; intros c.
  - unfold line_units. simpl. lia.
  - simpl fold_left. rewrite IH, counted_add, line_units_cons. lia.
Qed.

Lemma keys_lines items c :
  NoDup (map fst c) ->
  NoDup (map fst (fold_left (fun counter item =>
                               counter_add (Item.nome item) (Item.quantidade item) counter)
                            items c)) /\
  forall x, x ∈ map fst (fold_left (fun counter item =>
                                      counter_add (Item.nome item) (Item.quantidade item)
                                        counter) items c)
            <-> x ∈ map fst c \/ exists item, item ∈ items /\ Item.nome item = x.
Proof.
  revert c. induction items as [|item items IH]; intros c Hc; simpl.
  - split; [exact Hc|]. intros x. split; [now left|].
    intros [H | (item & H & _)]; [exact H | inversion H].
  - destruct (IH (counter_add (Item.nome item) (Item.quantidade item) c)) as [Hnd Hkeys].
    { now apply keys_add_NoDup. }
    split; [exact Hnd|]. intros x. rewrite Hkeys, keys_add_elem. split.
    + intros [[-> | H] | (it & Hit & Hn)].
      * right. exists item. split; [constructor | reflexivity].
      * now left.
      * right. exists it. split; [now constructor | exact Hn].
    + intros [H | (it & Hit & Hn)]; [left; now right|].
      apply elem_of_cons in Hit as [-> | Hit]; [left; now left|].
      right. now exists it.
Qed.

(** The outer loop, over the orders. *)
Lemma count_orders k orders c :
  counted k (fold_left (fun counter order =>
                          fold_left (fun counter item =>
                                       counter_add (Item.nome item) (Item.quantidade item)
                                         counter)
                                    (OrderDoc.items order) counter)
                       orders c)
  = counted k c + units_sold k orders.
Proof.
  revert c. induction orders as [|order orders IH]; intros c.
  - unfold units_sold. simpl. lia.
  - simpl fold_left. rewrite IH, count_lines. unfold units_sold. simpl. lia.
Qed.

Lemma keys_orders orders c :
  NoDup (map fst c) ->
  NoDup (map fst (fold_left (fun counter order =>
                               fold_left (fun counter item =>
                                            counter_add (Item.nome item)
                                              (Item.quantidade item) counter)
                                         (OrderDoc.items order) counter)
                            orders c)) /\
  forall x, x ∈ map fst (fold_left (fun counter order =>
                                      fold_left (fun counter item =>
                                                   counter_add (Item.nome item)
                                                     (Item.quantidade item) counter)
                                                (OrderDoc.items order) counter)
                                   orders c)
            <-> x ∈ map fst c \/
                exists order item, order ∈ orders /\ item ∈ OrderDoc.items order /\
                                   Item.nome item = x.
Proof.
  revert c. induction orders as [|order orders IH]; intros c Hc; simpl.
  - split; [exact Hc|]. intros x. split; [now left|].
    intros [H | (o & it & H & _)]; [exact H | inversion H].
  - destruct (keys_lines (OrderDoc.items order) c Hc) as [Hnd1 Hkeys1].
    destruct (IH _ Hnd1) as [Hnd Hkeys].
    split; [exact Hnd|]. intros x. rewrite Hkeys, Hkeys1. split.
    + intros [[H | (it & Hit & Hn)] | (o & it & Ho & Hit & Hn)].
      * now left.
      * right. exists order, it. split; [constructor|]. now split.
      * right. exists o, it. split; [now constructor|]. now split.
    + intros [H | (o & it & Ho & Hit & Hn)]; [left; now left|].
      apply elem_of_cons in Ho as [-> | Ho].
      * left. right. now exists it.
      * right. now exists o, it.
Qed.

Lemma produtos_counter_spec orders :
  NoDup (map fst (produtos_counter orders)) /\
  (forall nome n, (nome, n) ∈ produtos_counter orders -> n = units_sold nome orders) /\
  (forall nome, nome ∈ map fst (produtos_counter orders) <->
                exists order item, order ∈ orders /\ item ∈ OrderDoc.items order /\
                                   Item.nome item = nome).
Proof.
  unfold produtos_counter.
  destruct (keys_orders orders [] (NoDup_nil_2)) as [Hnd Hkeys].
  split; [exact Hnd|]. split.
  - intros nome n Hin. rewrite <- (counted_entry nome n _ Hnd Hin). now rewrite count_orders.
  - intros nome. rewrite Hkeys. split; [|now right].
    intros [H | H]; [inversion H | exact H].
Qed.
End CounterFacts.

Lemma get_dashboard_produtos_run vendor db :
  get_dashboard_produtos_mais_vendidos vendor db =
  (Ok (most_common 5
         (produtos_counter
            (take 1000 (List.filter (order_by_vendor (Vendor.id vendor)) (orders db))))), db).
Proof.
  unfold get_dashboard_produtos_mais_vendidos.
  erewrite bind_ok by apply db_orders_query. reflexivity.
Qed.

Lemma most_common_members n counter entry :
  entry ∈ most_common n counter -> entry ∈ counter.
Proof.
  unfold most_common. intros H. apply subseteq_take in H.
  now rewrite SortFacts.sort_reverse_perm in H.
Qed.

Lemma most_common_NoDup n counter :
  NoDup (map fst counter) -> NoDup (map fst (most_common n counter)).
Proof.
  intros Hc. unfold most_common.
  assert (Hs : NoDup (map fst (sort_reverse snd counter))).
  { now rewrite (SortFacts.sort_reverse_perm snd counter). }
  rewrite <- (take_drop n (sort_reverse snd counter)), map_app in Hs.
  now apply NoDup_app in Hs as [Hs _].
Qed.

(** X22: the best sellers of the dashboard are at most five product
    names, each once, largest count first; and the count beside a name is
    the sum of the quantities of all the lines with that name in the
    orders the dashboard reads (the vendor's first thousand), a name that
    is listed being the name of some such line. *)
Theorem best_sellers_are_ranked vendor db :
  let read := take 1000 (List.filter (order_by_vendor (Vendor.id vendor)) (orders db)) in
  exists ranking,
    get_dashboard_produtos_mais_vendidos vendor db = (Ok ranking, db) /\
    (length ranking <= 5)%nat /\
    NoDup (map fst ranking) /\
    StronglySorted (fun a b => snd b <= snd a) ranking /\
    (forall nome n, (nome, n) ∈ ranking ->
       n = units_sold nome read /\
       exists order item, order ∈ read /\ item ∈ OrderDoc.items order /\
                          Item.nome item = nome).
Proof.
  intros read. eexists. split; [apply get_dashboard_produtos_run|]. fold read.
  destruct (CounterFacts.produtos_counter_spec read) as (Hnd & Hcount & Hkeys).
  split; [unfold most_common; rewrite length_take; lia|].
  split; [now apply most_common_NoDup|].
  split; [apply SortFacts.sorted_take, SortFacts.sort_reverse_sorted|].
  intros nome n Hin. apply most_common_members in Hin.
  split; [now apply Hcount|]. apply Hkeys.
  apply list_elem_of_In, in_map_iff. exists (nome, n). split; [reflexivity|].
  now apply list_elem_of_In.
Qed.

(** X23: the ranking leaves out no product that sold more than one it
    shows, and leaves out nothing while it has room: a product name that
    appears on a line of the orders read, and is not among the best
    sellers, sold no more units than each of the names listed, and then
    five names are listed. *)
Theorem best_sellers_are_the_top vendor db :
  let read := take 1000 (List.filter (order_by_vendor (Vendor.id vendor)) (orders db)) in
  forall ranking,
    fst (get_dashboard_produtos_mais_vendidos vendor db) = Ok ranking ->
    forall order item,
      order ∈ read -> item ∈ OrderDoc.items order ->
      Item.nome item ∉ map fst ranking ->
      length ranking = 5%nat /\
      forall nome n, (nome, n) ∈ ranking -> units_sold (Item.nome item) read <= n.
Proof.
  intros read ranking Hrun order item Horder Hitem Hout.
  rewrite get_dashboard_produtos_run in Hrun. simpl in Hrun. fold read in Hrun.
  injection Hrun as <-.
  destruct (CounterFacts.produtos_counter_spec read) as (Hnd & Hcount & Hkeys).
  assert (Hkey : Item.nome item ∈ map fst (produtos_counter read)).
  { apply Hkeys. now exists order, item. }
  apply list_elem_of_In, in_map_iff in Hkey as ([k n0] & Hk & Hin0). simpl in Hk. subst k.
  apply list_elem_of_In in Hin0.
  pose proof (Hcount _ _ Hin0) as Hn0.
  assert (Hsorted : (Item.nome item, n0) ∈ sort_reverse snd (produtos_counter read)).
  { now rewrite SortFacts.sort_reverse_perm. }
  rewrite <- (take_drop 5 (sort_reverse snd (produtos_counter read))) in Hsorted.
  apply elem_of_app in Hsorted as [Htake | Hdrop].
  - destruct Hout. unfold most_common.
    apply list_elem_of_In, in_map_iff. exists (Item.nome item, n0).
    split; [reflexivity | now apply list_elem_of_In].
  - split.
    + unfold most_common. rewrite length_take.
      assert (Hlen : (5 < length (sort_reverse snd (produtos_counter read)))%nat).
      { destruct (Nat.lt_ge_cases 5 (length (sort_reverse snd (produtos_counter read))))
          as [H|H]; [exact H|].
        rewrite drop_ge in Hdrop by lia. inversion Hdrop. }
      lia.
    + intros nome n Hin. unfold most_common in Hin.
      pose proof (SortFacts.sort_reverse_take_drop snd 5 (produtos_counter read)
                    (nome, n) (Item.nome item, n0) Hin Hdrop) as Hle.
      simpl in Hle. lia.
Qed.

Lemma best_sellers_are_the_top_witness :
  let sales :=
    foldl (fun db k =>
             exec (CreateOrder
                     (Market.order_for "A"
                        [Market.line "P" ("Tomate " +:+ pretty k) 1%float (Z.of_nat k)])
                     ("o-" +:+ pretty k) (Z.of_nat k)) db)
          Market.stocked (seq 1 6) in
  fst (get_dashboard_produtos_mais_vendidos Market.ana sales)
  = Ok [("Tomate 6"%string, 6); ("Tomate 5"%string, 5); ("Tomate 4"%string, 4);
        ("Tomate 3"%string, 3); ("Tomate 2"%string, 2)] /\
  units_sold "Tomate 1"
    (take 1000 (List.filter (order_by_vendor "A") (orders sales))) <= 2.
Proof.
  intros sales. split; [vm_compute; reflexivity|].
  edestruct (best_sellers_are_the_top Market.ana sales) as [_ Htop].
  - vm_compute. reflexivity.
  - apply list_elem_of_here.
  - apply list_elem_of_here.
  - vm_compute. intros H. repeat (apply elem_of_cons in H as [H|H]; [discriminate|]).
    inversion H.
  - apply (Htop "Tomate 2"%string 2). repeat constructor.
Defined.

(** ** Routes that only read *)

(** X24: the routes that fetch but do not post leave the store exactly
    as it was, whatever they answer: login (for any password check), the
    home page, a store page, its categories, both listings (whether the
    parameters are accepted or not) and the dashboard. *)
Theorem reading_routes_do_not_write db :
  (forall verify_password login_data,
      snd (login_vendor verify_password login_data db) = db) /\
  snd (get_all_stores db) = db /\
  (forall nome_loja, snd (get_store nome_loja db) = db) /\
  (forall nome_loja, snd (get_store_categories nome_loja db) = db) /\
  (forall credentials skip limit, snd (GET_products_my credentials skip limit db) = db) /\
  (forall credentials skip limit, snd (GET_orders_my credentials skip limit db) = db) /\
  (forall credentials, snd (Depends credentials get_dashboard db) = db) /\
  (forall credentials,
      snd (Depends credentials get_dashboard_produtos_mais_vendidos db) = db) /\
  snd (root db) = db.
Proof.
  split; [|split; [|split; [|split; [|split; [|split; [|split; [|split]]]]]]].
  - intros verify login_data. rewrite login_vendor_run.
    destruct (Collection.find_one _ (vendors db)); [|reflexivity].
    destruct (verify _ _); reflexivity.
  - now rewrite get_all_stores_run.
  - intros n. rewrite get_store_run. destruct (Collection.find_one _ _); reflexivity.
  - intros n. rewrite get_store_categories_run.
    destruct (Collection.find_one _ _); reflexivity.
  - intros. unfold GET_products_my. apply paginated_reads. intros; apply get_my_products_reads.
  - intros. unfold GET_orders_my. apply paginated_reads. intros; apply get_my_orders_reads.
  - intros. apply (Depends_preserves (fun db' => db' = db)); [reflexivity|].
    intros v. now rewrite get_dashboard_run.
  - intros. apply (Depends_preserves (fun db' => db' = db)); [reflexivity|].
    intros v. now rewrite get_dashboard_produtos_run.
  - reflexivity.
Qed.

(** ** The catalogue of one vendor and the others *)

Lemma first_by_id_is_owned c product_id vendor_id p :
  NoDup (map Product.id c) ->
  Collection.find_one (product_by_id_vendor product_id vendor_id) c = Some p ->
  Collection.find_one (product_by_id product_id) c = Some p.
Proof.
  unfold Collection.find_one. induction c as [|x c IH]; simpl; [discriminate|].
  rewrite NoDup_cons. intros [Hx Hc].
  unfold product_by_id_vendor at 1.
  destruct (product_by_id product_id x) eqn:Eid; simpl.
  - destruct (product_by_vendor vendor_id x); [trivial|].
    intros Hfind. apply find_some in Hfind as [Hin Hq].
    apply product_by_id_vendor_true in Hq as [Hq _].
    unfold product_by_id in Eid. apply String.eqb_eq in Eid.
    destruct Hx. apply list_elem_of_In, in_map_iff. exists p. split; [congruence | exact Hin].
  - now apply IH.
Qed.

(** X25: with unique product ids, a vendor's [update_product] cannot
    touch another vendor's products: whatever the id and the form, the
    products of every other vendor are exactly as before, as are the
    vendors and the orders. *)
Theorem update_product_leaves_others product_id product_data vendor db :
  NoDup (map Product.id (products db)) ->
  let db' := snd (update_product product_id product_data vendor db) in
  (forall other, other <> Vendor.id vendor ->
     List.filter (product_by_vendor other) (products db')
     = List.filter (product_by_vendor other) (products db)) /\
  map Product.id (products db') = map Product.id (products db) /\
  map Product.vendor_id (products db') = map Product.vendor_id (products db) /\
  vendors db' = vendors db /\ orders db' = orders db.
Proof.
  intros Hnd db'. subst db'. rewrite update_product_run.
  destruct (Collection.find_one (product_by_id_vendor product_id (Vendor.id vendor))
              (products db)) as [p|] eqn:Hfind; [|repeat split].
  pose proof (first_by_id_is_owned _ _ _ _ Hnd Hfind) as Hfirst.
  apply CollectionFacts.find_one_Some in Hfind as [_ Hown].
  apply product_by_id_vendor_true in Hown as [_ Hown].
  destruct (CollectionFacts.find_one_split _ _ _ Hfirst) as (c1 & c2 & Hsplit & Hq & Hc1).
  assert (E : snd (Collection.update_one (product_by_id product_id)
                     (set_product product_data) (products db))
              = c1 ++ set_product product_data p :: c2).
  { rewrite Hsplit. now rewrite CollectionFacts.update_one_hit. }
  cbv zeta. simpl products. rewrite E.
  assert (Hshape : forall (o : option Product.t) (d : Db),
             snd (match o with
                  | Some updated => (Ok updated, d)
                  | None => (HTTPException 500 "Internal Server Error", d)
                  end) = d) by (intros []; reflexivity).
  rewrite Hshape. simpl. rewrite Hsplit.
  split; [|split; [|split; [|split]]]; try reflexivity.
  - intros other Hother.
    assert (H1 : product_by_vendor other p = false).
    { unfold product_by_vendor. rewrite Hown.
      destruct (String.eqb_spec (Vendor.id vendor) other); [congruence | reflexivity]. }
    assert (H2 : product_by_vendor other (set_product product_data p) = false) by exact H1.
    rewrite !List.filter_app. cbn [List.filter]. now rewrite H1, H2.
  - now rewrite !map_app.
  - now rewrite !map_app.
Qed.

Lemma update_product_leaves_others_witness :
  List.filter (product_by_vendor "B")
    (products (snd (update_product "P"
                      (ProductCreate.mk "Tomate" "Caixa" 7%float 1 "Verduras" None)
                      Market.ana Market.db)))
  = [Market.ovos].
Proof.
  destruct (update_product_leaves_others "P"
              (ProductCreate.mk "Tomate" "Caixa" 7%float 1 "Verduras" None)
              Market.ana Market.db) as [Hothers _].
  - apply (bool_decide_unpack _); vm_compute; exact I.
  - rewrite Hothers; [reflexivity | discriminate].
Defined.
